(** * DancingPeasant: the life cycle of a [BaseFile] store

    A shallow embedding of [dancingpeasant/DancingPeasant.py] (class
    [BaseFile]): opening, creating and closing the SQLite file behind a
    store, adding tables, the history log and the version read from it.

    The Python methods mutate [self] and talk to four things outside the
    program: the file system, the [sqlite3] module, the wall clock and the
    terminal.  Each method becomes a function in a state-and-exception
    monad over the pair of [self] and a [World] that holds those four. *)

From Stdlib Require Import ZArith String Ascii List Lia DecimalString.
From stdpp Require Import base option gmap strings.
Import ListNotations.
Local Open Scope Z_scope.

(** ** Python values and exceptions *)

(** The values the methods take and return: [None], an [int], a [str]
    (Python 2's [str] and [unicode] are not told apart). *)
Inductive PyVal : Type :=
| PyNone
| PyInt (n : Z)
| PyStr (s : string).

(** [str(n)] for an [int]. *)
Definition str_of_Z (n : Z) : string := NilZero.string_of_int (Z.to_int n).

(** [str(v)], also what ["%s" % v] prints. *)
Definition py_str (v : PyVal) : string :=
  match v with
  | PyNone => "None"
  | PyInt n => str_of_Z n
  | PyStr s => s
  end.

(** An argument an exception is built with: a string, or a tuple of
    strings ([createNewFile] hands its format string and the tuple of file
    names to the exception without interpolating them). *)
Inductive Arg : Type :=
| ArgStr (s : string)
| ArgTuple (items : list string).

(** Modelled from the spec: the module [dancingpeasant.DPExceptions], which
    declares the four [DP_] exception classes, is not among the sources.
    The spec's error kinds name them: [AlreadyOpen] is
    [DP_FileAlreadyOpenException], [NotOpen] is [DP_FileNotOpenException],
    [NotFound] is [DP_FileNotFoundException] and [EngineError] is
    [DP_FileError]; each carries the arguments it was built with.

    The other constructors are Python's own: [lite_Error] is [sqlite3.Error]
    with its message ([e.args[0]]); [IndexError] is what [rows[0]] raises on
    an empty result (the code has no class for the spec's
    [NoVersionRecorded]); [KeyError] comes from [del] and lookups on
    [self.meta], [AttributeError] from calling a method on [None],
    [EOFError] from [raw_input] at the end of the input, [OSError] from
    [os.remove].

    [sqlite3.Warning], which [execute] raises for a text that holds more
    than one statement and which is not a [sqlite3.Error], has no
    constructor here: the engine below does not follow the texts that could
    hold a second statement (see [sql_literal]). *)
Inductive Exception : Type :=
| DP_FileAlreadyOpenException (args : list Arg)
| DP_FileNotFoundException (args : list Arg)
| DP_FileNotOpenException (args : list Arg)
| DP_FileError (args : list Arg)
| lite_Error (msg : string)
| IndexError
| KeyError
| AttributeError
| EOFError
| OSError.

(** How a call ends: it returns a value or raises. *)
Inductive Outcome (A : Type) : Type :=
| Return (a : A)
| Raise (e : Exception).
Arguments Return {A} a.
Arguments Raise {A} e.

(** ** Strings as Python and SQLite read them *)

Definition is_lower (c : ascii) : bool :=
  (97 <=? nat_of_ascii c)%nat && (nat_of_ascii c <=? 122)%nat.
Definition is_upper (c : ascii) : bool :=
  (65 <=? nat_of_ascii c)%nat && (nat_of_ascii c <=? 90)%nat.
Definition is_digit (c : ascii) : bool :=
  (48 <=? nat_of_ascii c)%nat && (nat_of_ascii c <=? 57)%nat.

Definition upper_char (c : ascii) : ascii :=
  if is_lower c then ascii_of_nat (nat_of_ascii c - 32) else c.
Definition lower_char (c : ascii) : ascii :=
  if is_upper c then ascii_of_nat (nat_of_ascii c + 32) else c.

Fixpoint map_string (f : ascii -> ascii) (s : string) : string :=
  match s with
  | EmptyString => EmptyString
  | String c rest => String (f c) (map_string f rest)
  end.

(** [s.upper()] and [s.lower()]. *)
Definition upper (s : string) : string := map_string upper_char s.
Definition lower (s : string) : string := map_string lower_char s.

(** [sep.join(items)]. *)
Fixpoint join (sep : string) (items : list string) : string :=
  match items with
  | [] => ""
  | [x] => x
  | x :: rest => x +:+ sep +:+ join sep rest
  end.

Definition quote : ascii := "'"%char.

(** The text SQLite reads from a string literal whose body, between the
    two quotes the statement supplies, is [s]: a doubled quote stands for
    one quote.  A single quote inside [s] ends the literal early and the
    rest of [s] becomes part of the statement, which SQLite may well accept
    (more rows, other values) or refuse.  The model does not follow such
    statements: [None] marks them, the engine below refuses them where the
    real one may not, and what is stated about the rows the engine writes
    keeps to texts where this is [Some]. *)
Fixpoint sql_literal (s : string) : option string :=
  match s with
  | EmptyString => Some EmptyString
  | String c rest =>
      if Ascii.eqb c quote then
        match rest with
        | String c' rest' =>
            if Ascii.eqb c' quote
            then option_map (String quote) (sql_literal rest')
            else None
        | EmptyString => None
        end
      else option_map (String c) (sql_literal rest)
  end.

(** No quote character at all: the literal reads as the string itself. *)
Fixpoint quote_free (s : string) : bool :=
  match s with
  | EmptyString => true
  | String c rest => negb (Ascii.eqb c quote) && quote_free rest
  end.

Definition is_word_char (c : ascii) : bool :=
  is_lower c || is_upper c || is_digit c || Ascii.eqb c "_"%char.

Fixpoint all_chars (p : ascii -> bool) (s : string) : bool :=
  match s with
  | EmptyString => true
  | String c rest => p c && all_chars p rest
  end.

(** "tableName should be one unique *nonfancy* word" (docstring of
    [addTable]): letters, digits and underscores, not starting with a
    digit.  SQLite reads such a word as a bare name, unless it is one of
    its keywords ([order]) or begins with [sqlite_]: [plain_name] below
    leaves those out. *)
Definition nonfancy (s : string) : bool :=
  match s with
  | EmptyString => false
  | String c _ => negb (is_digit c) && all_chars is_word_char s
  end.

(** SQLite matches table names in statements without regard to case. *)
Definition sql_name_eqb (a b : string) : bool := String.eqb (lower a) (lower b).

(** Printable ASCII: the texts for which Python 2's [str], SQLite's text
    and the [unicode] that [fetchall] hands back all agree (no NUL, no
    byte that needs decoding). *)
Definition is_printable (c : ascii) : bool :=
  (32 <=? nat_of_ascii c)%nat && (nat_of_ascii c <=? 126)%nat.

Definition printable (s : string) : bool := all_chars is_printable s.

(** SQLite's keywords, all of them (many may in fact be used as names). *)
Definition sqlite_keywords : list string :=
  ["ABORT"; "ACTION"; "ADD"; "AFTER"; "ALL"; "ALTER"; "ALWAYS"; "ANALYZE";
   "AND"; "AS"; "ASC"; "ATTACH"; "AUTOINCREMENT"; "BEFORE"; "BEGIN";
   "BETWEEN"; "BY"; "CASCADE"; "CASE"; "CAST"; "CHECK"; "COLLATE"; "COLUMN";
   "COMMIT"; "CONFLICT"; "CONSTRAINT"; "CREATE"; "CROSS"; "CURRENT";
   "CURRENT_DATE"; "CURRENT_TIME"; "CURRENT_TIMESTAMP"; "DATABASE";
   "DEFAULT"; "DEFERRABLE"; "DEFERRED"; "DELETE"; "DESC"; "DETACH";
   "DISTINCT"; "DO"; "DROP"; "EACH"; "ELSE"; "END"; "ESCAPE"; "EXCEPT";
   "EXCLUDE"; "EXCLUSIVE"; "EXISTS"; "EXPLAIN"; "FAIL"; "FILTER"; "FIRST";
   "FOLLOWING"; "FOR"; "FOREIGN"; "FROM"; "FULL"; "GENERATED"; "GLOB";
   "GROUP"; "GROUPS"; "HAVING"; "IF"; "IGNORE"; "IMMEDIATE"; "IN"; "INDEX";
   "INDEXED"; "INITIALLY"; "INNER"; "INSERT"; "INSTEAD"; "INTERSECT";
   "INTO"; "IS"; "ISNULL"; "JOIN"; "KEY"; "LAST"; "LEFT"; "LIKE"; "LIMIT";
   "MATCH"; "MATERIALIZED"; "NATURAL"; "NO"; "NOT"; "NOTHING"; "NOTNULL";
   "NULL"; "NULLS"; "OF"; "OFFSET"; "ON"; "OR"; "ORDER"; "OTHERS"; "OUTER";
   "OVER"; "PARTITION"; "PLAN"; "PRAGMA"; "PRECEDING"; "PRIMARY"; "QUERY";
   "RAISE"; "RANGE"; "RECURSIVE"; "REFERENCES"; "REGEXP"; "REINDEX";
   "RELEASE"; "RENAME"; "REPLACE"; "RESTRICT"; "RETURNING"; "RIGHT";
   "ROLLBACK"; "ROW"; "ROWS"; "SAVEPOINT"; "SELECT"; "SET"; "TABLE"; "TEMP";
   "TEMPORARY"; "THEN"; "TIES"; "TO"; "TRANSACTION"; "TRIGGER"; "UNBOUNDED";
   "UNION"; "UNIQUE"; "UPDATE"; "USING"; "VACUUM"; "VALUES"; "VIEW";
   "VIRTUAL"; "WHEN"; "WHERE"; "WINDOW"; "WITH"; "WITHIN"; "WITHOUT"].

Definition is_keyword (s : string) : bool :=
  existsb (String.eqb (upper s)) sqlite_keywords.

(** A name SQLite takes as it stands in [DROP TABLE] and [CREATE TABLE]: a
    nonfancy word of at most 64 letters that is no keyword and does not
    begin with [sqlite_], which SQLite keeps for itself. *)
Definition plain_name (s : string) : bool :=
  nonfancy s && (String.length s <=? 64)%nat &&
  negb (is_keyword s) && negb (String.prefix "sqlite_" (lower s)).

(** Column texts of the kind the docstring of [addTable] shows,
    ["Id INT, Name TEXT, Price INT"]: columns with a plain name and one of
    SQLite's five storage types (or [INTEGER]), the names all different
    (SQLite compares them without regard to case), no more than the 2000
    columns SQLite allows. *)
Definition column_types : list string :=
  ["INT"; "INTEGER"; "TEXT"; "REAL"; "BLOB"; "NUMERIC"].

Definition render_columns (cols : list (string * string)) : string :=
  join ", " (map (fun c => fst c +:+ " " +:+ snd c) cols).

Fixpoint distinct_names (names : list string) : bool :=
  match names with
  | [] => true
  | n :: rest => negb (existsb (sql_name_eqb n) rest) && distinct_names rest
  end.

Definition plain_columns (cols : list (string * string)) : bool :=
  (0 <? length cols)%nat && (length cols <=? 2000)%nat &&
  forallb (fun c => plain_name (fst c) &&
                    existsb (String.eqb (snd c)) column_types) cols &&
  distinct_names (map fst cols).

(** ** The database inside a file *)

(** A stored value.  SQLite's reals and blobs are left out: the program
    writes integers and text only. *)
Inductive SqlValue : Type :=
| SqlNull
| SqlInt (n : Z)
| SqlText (s : string).

(** A table: its name as given when it was created, the column text it was
    created with (["Id INT, Name TEXT, Price INT"]), and its rows in
    insertion order. *)
Record Table : Type := mkTable {
  tbl_name : string;
  tbl_columns : string;
  tbl_rows : list (list SqlValue)
}.

Abbreviation Row := (list SqlValue).
Abbreviation Db := (list Table).

(** The five statements the program sends, with the strings it
    interpolates into them:
    - [SELECT name FROM sqlite_master WHERE type='table' AND name='%s']
    - [DROP TABLE IF EXISTS %s]
    - [CREATE TABLE %s(%s)]
    - [INSERT INTO history (time, type, event) VALUES ('%d', '%s', '%s')]
    - [SELECT * FROM history WHERE type='version' ORDER BY time DESC] *)
Inductive Sql : Type :=
| SelectTableNamed (tableName : string)
| DropTableIfExists (tableName : string)
| CreateTable (tableName columns : string)
| InsertHistory (time : Z) (type event : string)
| SelectVersions.

(** What [createNewFile] creates the history table with. *)
Definition history_columns : string := "time INT, type TEXT, event TEXT".

Definition find_table (name : string) (db : Db) : option Table :=
  List.find (fun t => sql_name_eqb (tbl_name t) name) db.

Definition drop_table (name : string) (db : Db) : Db :=
  List.filter (fun t => negb (sql_name_eqb (tbl_name t) name)) db.

Fixpoint append_row (name : string) (r : Row) (db : Db) : Db :=
  match db with
  | [] => []
  | t :: rest =>
      if sql_name_eqb (tbl_name t) name
      then mkTable (tbl_name t) (tbl_columns t) (tbl_rows t ++ [r]) :: rest
      else t :: append_row name r rest
  end.

(** SQLite's order on stored values: NULL, then integers by value, then
    text byte by byte. *)
Definition sql_compare (a b : SqlValue) : comparison :=
  match a, b with
  | SqlNull, SqlNull => Eq
  | SqlNull, _ => Lt
  | _, SqlNull => Gt
  | SqlInt x, SqlInt y => Z.compare x y
  | SqlInt _, SqlText _ => Lt
  | SqlText _, SqlInt _ => Gt
  | SqlText x, SqlText y => String.compare x y
  end.

Definition sql_ltb (a b : SqlValue) : bool :=
  match sql_compare a b with Lt => true | _ => false end.

(** The columns of a history row. *)
Definition time_of (r : Row) : SqlValue := nth 0 r SqlNull.
Definition type_of (r : Row) : SqlValue := nth 1 r SqlNull.

Definition is_version (r : Row) : bool :=
  match type_of r with
  | SqlText ty => String.eqb ty "version"
  | _ => false
  end.

(** [ORDER BY time DESC].  SQL leaves the order of rows with equal keys
    open; SQLite's sorter keeps them in the order it scanned them, which
    is the order they were inserted in.  So: a stable sort, as an insertion
    sort that puts a row in front of the rows that do not exceed it. *)
Fixpoint insert_desc (r : Row) (sorted : list Row) : list Row :=
  match sorted with
  | [] => [r]
  | r' :: rest =>
      if sql_ltb (time_of r) (time_of r')
      then r' :: insert_desc r rest
      else r :: sorted
  end.

Fixpoint order_by_time_desc (rows : list Row) : list Row :=
  match rows with
  | [] => []
  | r :: rest => insert_desc r (order_by_time_desc rest)
  end.

(** One statement on the tables of a file: an error message, or the tables
    afterwards and the rows fetched.  This follows SQLite on a fragment:
    [DROP TABLE] and [CREATE TABLE] for a [plain_name], with a column text
    that is empty (a syntax error) or of the kind [plain_columns]
    describes; string literals that [sql_literal] reads; the history table
    in the layout [history_columns]; files that hold tables and nothing
    else.  Outside the fragment the answers below are stand-ins, and
    SQLite's differ: a nonfancy word that is a keyword is taken here as a
    name and any column text as good, where SQLite may refuse them; a text
    with a lone quote and a history of another layout are refused here,
    where SQLite may accept them.  The messages of syntax errors are
    shortened.  What is stated about the engine's answers keeps
    inside the fragment, through its hypotheses. *)
Definition sql_run (q : Sql) (db : Db) : string + (Db * list Row) :=
  match q with
  | SelectTableNamed n =>
      match sql_literal n with
      | None => inl "syntax error"
      | Some n' =>
          inr (db, map (fun t => [SqlText (tbl_name t)])
                       (List.filter (fun t => String.eqb (tbl_name t) n') db))
      end
  | DropTableIfExists n =>
      if nonfancy n
      then inr (drop_table n db, [])
      else inl "syntax error"
  | CreateTable n cols =>
      if negb (nonfancy n) then inl "syntax error"
      else if String.eqb cols "" then inl "near ): syntax error"
      else match find_table n db with
           | Some _ => inl ("table " +:+ n +:+ " already exists")
           | None => inr (db ++ [mkTable n cols []], [])
           end
  | InsertHistory t ty ev =>
      match find_table "history" db with
      | None => inl "no such table: history"
      | Some h =>
          if negb (String.eqb (tbl_columns h) history_columns)
          then inl "table history has another layout"
          else match sql_literal ty, sql_literal ev with
               | Some ty', Some ev' =>
                   inr (append_row "history" [SqlInt t; SqlText ty'; SqlText ev'] db, [])
               | _, _ => inl "syntax error"
               end
      end
  | SelectVersions =>
      match find_table "history" db with
      | None => inl "no such table: history"
      | Some h =>
          if negb (String.eqb (tbl_columns h) history_columns)
          then inl "table history has another layout"
          else inr (db, order_by_time_desc (List.filter is_version (tbl_rows h)))
      end
  end.

(** How the [sqlite3] module treats a statement: a query, a data change
    ([INSERT]), or anything else ([DROP], [CREATE]). *)
Inductive StatementKind : Type := Query | Dml | Other.

Definition statement_kind (q : Sql) : StatementKind :=
  match q with
  | SelectTableNamed _ | SelectVersions => Query
  | InsertHistory _ _ _ => Dml
  | DropTableIfExists _ | CreateTable _ _ => Other
  end.

(** ** The store and the world around it *)

(** A [sqlite3] connection: the file it is on and, while a transaction is
    open, the tables as the transaction has them. *)
Record Connection : Type := mkConnection {
  db_path : string;
  pending : option Db
}.

(** [self]: the dictionary [meta] with its two keys, [version] and
    [connection]. *)
Record BaseFile : Type := mkBaseFile {
  meta_verbosity : Z;
  meta_fileName : option string;
  version : PyVal;
  connection : option Connection
}.

(** What is outside the program.
    - [files]: the regular files, each with the tables committed to it;
    - [now], [later]: what [int(time.time())] reads next and after that
      (when [later] runs out the clock stands still);
    - [stdin]: the lines [raw_input] will read; [stdout]: what was written;
    - [faults]: for each coming call into [sqlite3], whether the engine
      raises there (a full disk, a lock, a text it does not take) and with
      which message; past the end of the list it does not. *)
Record World : Type := mkWorld {
  files : gmap string (list Table);
  now : Z;
  later : list Z;
  stdin : list string;
  stdout : list string;
  faults : list (option string)
}.

Record St : Type := mkSt { self : BaseFile; world : World }.

Definition set_files (f : gmap string (list Table)) (w : World) : World :=
  mkWorld f (now w) (later w) (stdin w) (stdout w) (faults w).
Definition set_clock (t : Z) (l : list Z) (w : World) : World :=
  mkWorld (files w) t l (stdin w) (stdout w) (faults w).
Definition set_stdin (i : list string) (w : World) : World :=
  mkWorld (files w) (now w) (later w) i (stdout w) (faults w).
Definition set_stdout (o : list string) (w : World) : World :=
  mkWorld (files w) (now w) (later w) (stdin w) o (faults w).
Definition set_faults (f : list (option string)) (w : World) : World :=
  mkWorld (files w) (now w) (later w) (stdin w) (stdout w) f.

Definition set_fileName (f : option string) (s : BaseFile) : BaseFile :=
  mkBaseFile (meta_verbosity s) f (version s) (connection s).
Definition set_version (v : PyVal) (s : BaseFile) : BaseFile :=
  mkBaseFile (meta_verbosity s) (meta_fileName s) v (connection s).
Definition set_connection (c : option Connection) (s : BaseFile) : BaseFile :=
  mkBaseFile (meta_verbosity s) (meta_fileName s) (version s) c.

(** ** The monad: state and exceptions *)

Definition M (A : Type) : Type := St -> Outcome A * St.

Definition ret {A} (a : A) : M A := fun st => (Return a, st).
Definition raise {A} (e : Exception) : M A := fun st => (Raise e, st).
Definition bind {A B} (m : M A) (k : A -> M B) : M B :=
  fun st =>
    match m st with
    | (Return a, st') => k a st'
    | (Raise e, st') => (Raise e, st')
    end.

Notation "'let*' x ':=' m 'in' k" := (bind m (fun x => k))
  (at level 10, x name, m at level 100, k at level 200).
Notation "m ';;' k" := (bind m (fun _ => k))
  (at level 100, k at level 200, right associativity).

(** [try: m except lite.Error, e: h(e.args[0])]. *)
Definition except_lite {A} (m : M A) (h : string -> M A) : M A :=
  fun st =>
    match m st with
    | (Raise (lite_Error msg), st') => h msg st'
    | r => r
    end.

Definition get_self : M BaseFile := fun st => (Return (self st), st).
Definition modify_self (f : BaseFile -> BaseFile) : M unit :=
  fun st => (Return tt, mkSt (f (self st)) (world st)).
Definition get_world : M World := fun st => (Return (world st), st).
Definition modify_world (f : World -> World) : M unit :=
  fun st => (Return tt, mkSt (self st) (f (world st))).

(** ** The outside world: clock, terminal, files *)

(** The clock after a reading. *)
Definition tick (w : World) : World :=
  match later w with
  | [] => w
  | t :: l => set_clock t l w
  end.

(** [int(time.time())]. *)
Definition time_time : M Z :=
  fun st => (Return (now (world st)), mkSt (self st) (tick (world st))).

(** [print line]. *)
Definition print (line : string) : M unit :=
  modify_world (fun w => set_stdout (stdout w ++ [line]) w).

(** [os.path.isfile(path)]. *)
Definition os_path_isfile (path : string) : M bool :=
  fun st =>
    (Return (match files (world st) !! path with Some _ => true | None => false end), st).

(** [os.remove(path)]. *)
Definition os_remove (path : string) : M unit :=
  fun st =>
    match files (world st) !! path with
    | Some _ => (Return tt, mkSt (self st) (set_files (delete path (files (world st))) (world st)))
    | None => (Raise OSError, st)
    end.

(** ** The [sqlite3] module *)

(** Every call into the module first meets the engine's weather: the next
    entry of [faults] is used up, and a message there is raised. *)
Definition next_fault (w : World) : option string :=
  match faults w with
  | f :: _ => f
  | [] => None
  end.

Definition pop_fault (st : St) : St :=
  mkSt (self st) (set_faults (tl (faults (world st))) (world st)).

Definition engine_call {A} (op : M A) : M A :=
  fun st =>
    match next_fault (world st) with
    | Some msg => (Raise (lite_Error msg), pop_fault st)
    | None => op (pop_fault st)
    end.

(** [lite.connect(path)]: a file that is not there is created, empty. *)
Definition lite_connect (path : string) : M Connection :=
  engine_call (fun st =>
    let w := world st in
    let w' := match files w !! path with
              | Some _ => w
              | None => set_files (<[path := []]> (files w)) w
              end in
    (Return (mkConnection path None), mkSt (self st) w')).

(** A method of [self.connection]; on [None] Python raises
    [AttributeError]. *)
Definition on_connection {A} (f : Connection -> M A) : M A :=
  fun st =>
    match connection (self st) with
    | None => (Raise AttributeError, st)
    | Some c => f c st
    end.

Definition put_connection (c : Connection) (st : St) : St :=
  mkSt (set_connection (Some c) (self st)) (world st).
Definition put_file (path : string) (db : Db) (st : St) : St :=
  mkSt (self st) (set_files (<[path := db]> (files (world st))) (world st)).

(** The tables as the connection sees them: what its open transaction has
    made of them, or else what is in the file. *)
Definition view (c : Connection) (committed : Db) : Db :=
  match pending c with
  | Some d => d
  | None => committed
  end.

(** [cur = self.connection.cursor(); cur.execute(q)] and, for a query,
    [cur.fetchall()].  The module opens a transaction before an [INSERT]
    and keeps its changes pending until [commit]; before a statement that
    is neither a query nor a data change it commits what is pending, and
    that statement then runs outside any transaction: what it does is in
    the file at once. *)
Definition execute (q : Sql) : M (list Row) :=
  on_connection (fun c => engine_call (fun st =>
    match files (world st) !! db_path c with
    | None => (Raise (lite_Error "unable to open database file"), st)
    | Some committed =>
        match statement_kind q with
        | Query =>
            match sql_run q (view c committed) with
            | inl msg => (Raise (lite_Error msg), st)
            | inr (_, rows) => (Return rows, st)
            end
        | Dml =>
            match sql_run q (view c committed) with
            | inl msg => (Raise (lite_Error msg), st)
            | inr (db', _) =>
                (Return [], put_connection (mkConnection (db_path c) (Some db')) st)
            end
        | Other =>
            let st1 := match pending c with
                       | Some d =>
                           put_file (db_path c) d
                             (put_connection (mkConnection (db_path c) None) st)
                       | None => st
                       end in
            match sql_run q (view c committed) with
            | inl msg => (Raise (lite_Error msg), st1)
            | inr (db', _) => (Return [], put_file (db_path c) db' st1)
            end
        end
    end)).

(** [self.connection.commit()]. *)
Definition commit : M unit :=
  on_connection (fun c => engine_call (fun st =>
    match pending c with
    | None => (Return tt, st)
    | Some d =>
        (Return tt, put_file (db_path c) d
                      (put_connection (mkConnection (db_path c) None) st))
    end)).

(** [self.connection.rollback()]. *)
Definition rollback : M unit :=
  on_connection (fun c => engine_call (fun st =>
    (Return tt, put_connection (mkConnection (db_path c) None) st))).

(** [self.connection.close()]: what is pending is dropped with the
    connection. *)
Definition connection_close : M unit :=
  on_connection (fun c => engine_call (fun st =>
    (Return tt, put_connection (mkConnection (db_path c) None) st))).

(** A row as [fetchall] hands it to Python. *)
Definition py_of_sql (v : SqlValue) : PyVal :=
  match v with
  | SqlNull => PyNone
  | SqlInt n => PyInt n
  | SqlText s => PyStr s
  end.

(** ** The methods of [BaseFile] *)

(** [BaseFile(verbosity)]. *)
Definition __init__ (verbosity : Z) : BaseFile :=
  mkBaseFile verbosity None (PyInt (-1)) None.

(** [self.meta["fileName"]]. *)
Definition meta_get_fileName : M string :=
  fun st =>
    match meta_fileName (self st) with
    | Some f => (Return f, st)
    | None => (Raise KeyError, st)
    end.

(** [del self.meta["fileName"]]. *)
Definition meta_del_fileName : M unit :=
  fun st =>
    match meta_fileName (self st) with
    | Some _ => (Return tt, mkSt (set_fileName None (self st)) (world st))
    | None => (Raise KeyError, st)
    end.

Definition file_error (msg : string) : Exception :=
  DP_FileError [ArgStr ("ERROR " +:+ msg +:+ ":")].

(** [chatter]: the line is printed when [verbosityLevel] is at least the
    store's verbosity. *)
Definition chatter (message : string) (verbosityLevel : Z) : M unit :=
  let* s := get_self in
  if verbosityLevel >=? meta_verbosity s then print message else ret tt.

(** The dictionary [valid_responses]; CPython 2 keeps its keys in this
    order. *)
Definition valid_responses : list (string * bool) := [("Y", true); ("N", false)].

Definition vrs : string := join "," (map (fun kv => lower (fst kv)) valid_responses).

Definition lookup_response (answer : string) : option bool :=
  match List.find (fun kv => String.eqb (fst kv) answer) valid_responses with
  | Some kv => Some (snd kv)
  | None => None
  end.

Definition stars : string :=
  "****************************************************************".

Definition prompt_text (entity entityType : string) (minimal : bool) : string :=
  if minimal
  then " Overwrite? (" +:+ vrs +:+ ") : "
  else " ****WARNING**** " +:+ entityType +:+ ": '" +:+ entity +:+ "' exists." +:+
       String "010"%char
       (" If you continue it *WILL* be overwritten" +:+
        String "010"%char (" Overwrite? (" +:+ vrs +:+ ") : ")).

(** The [while] loop of [promptOnOverwrite], one [raw_input] per turn, on
    the lines still to be read: the answer (or [EOFError] when the input
    ends), the lines left, and what was written on the way. *)
Fixpoint prompt_loop (entity entityType : string) (minimal : bool)
    (lines : list string) : Outcome bool * list string * list string :=
  match lines with
  | [] => (Raise EOFError, [], [prompt_text entity entityType minimal])
  | line :: rest =>
      let opt := upper line in
      match lookup_response opt with
      | Some answer =>
          (Return answer, rest, [prompt_text entity entityType minimal; stars])
      | None =>
          let '(r, rest', out) := prompt_loop entity entityType true rest in
          (r, rest',
           prompt_text entity entityType minimal ::
           ("ERROR: unrecognised choice '" +:+ opt +:+ "'") :: out)
      end
  end.

(** [promptOnOverwrite(entity, entityType)]. *)
Definition promptOnOverwrite (entity entityType : string) : M bool :=
  fun st =>
    let w := world st in
    let '(r, rest, out) := prompt_loop entity entityType false (stdin w) in
    (r, mkSt (self st) (set_stdout (stdout w ++ out) (set_stdin rest w))).

(** The first [try] of [addTable], "check to see if the table exists":
    whether to go on. *)
Definition addTable_check (tableName : string) : M bool :=
  except_lite
    (let* rows := execute (SelectTableNamed tableName) in
     if (0 <? length rows)%nat then
       let* ok := promptOnOverwrite tableName "table" in
       if negb ok then
         chatter ("Add table " +:+ tableName +:+ " operation cancelled") 1 ;;
         ret false
       else ret true
     else ret true)
    (fun msg => raise (file_error msg)).

(** The second [try] of [addTable], "OK to add table". *)
Definition addTable_apply (tableName columns : string) : M unit :=
  except_lite
    (execute (DropTableIfExists tableName) ;;
     execute (CreateTable tableName columns) ;;
     commit)
    (fun msg =>
       (let* s' := get_self in
        match connection s' with
        | Some _ => rollback
        | None => ret tt
        end) ;;
       raise (file_error msg)).

(** [addTable(tableName, columns, force)]. *)
Definition addTable (tableName columns : string) (force : bool) : M unit :=
  let* s := get_self in
  match connection s with
  | None => raise (DP_FileNotOpenException [])
  | Some _ =>
      let* go := if negb force then addTable_check tableName else ret true in
      if negb go then ret tt else addTable_apply tableName columns
  end.

(** [dropTable(tableName, force)]: the body is [pass]. *)
Definition dropTable (tableName : string) (force : bool) : M unit := ret tt.

(** [_addHistory(type, event)]. *)
Definition _addHistory (type event : string) : M unit :=
  let* s := get_self in
  match connection s with
  | None => raise (DP_FileNotOpenException [])
  | Some _ =>
      except_lite
        (let* t := time_time in
         execute (InsertHistory t type event) ;;
         commit)
        (fun msg => raise (file_error msg))
  end.

Definition logMessage (message : PyVal) : M unit := _addHistory "message" (py_str message).
Definition logWarning (warning : PyVal) : M unit := _addHistory "warning" (py_str warning).
Definition logError (error : PyVal) : M unit := _addHistory "error" (py_str error).
Definition logVersion (version : PyVal) : M unit := _addHistory "version" (py_str version).

(** [r[2]], the event of a history row. *)
Definition payload (r : Row) : Outcome PyVal :=
  match nth_error r 2 with
  | Some v => Return (py_of_sql v)
  | None => Raise IndexError
  end.
Arguments payload : simpl never.

(** [getVersion()]: [rows[0][2]] of the version rows, newest first.  The
    [return -1] after the [try] is never reached. *)
Definition getVersion : M PyVal :=
  except_lite
    (let* rows := execute SelectVersions in
     match rows with
     | [] => raise IndexError
     | r :: _ => fun st => (payload r, st)
     end)
    (fun msg => raise (file_error msg)).

(** [openFile(fileName)]. *)
Definition openFile (fileName : string) : M unit :=
  let* s := get_self in
  match connection s with
  | Some _ => raise (DP_FileAlreadyOpenException [])
  | None =>
      let* isfile := os_path_isfile fileName in
      if negb isfile then
        raise (DP_FileNotFoundException
                 [ArgStr ("File " +:+ fileName +:+ " could not be found")])
      else
        let* c := except_lite (lite_connect fileName)
                    (fun msg => raise (file_error msg)) in
        modify_self (set_connection (Some c)) ;;
        modify_self (set_fileName (Some fileName)) ;;
        let* v := getVersion in
        modify_self (set_version v) ;;
        let* s' := get_self in
        chatter ("File: " +:+ fileName +:+ " (version: " +:+ py_str (version s') +:+
                 ") opened successfully") 1
  end.

(** [closeFile()]. *)
Definition closeFile : M unit :=
  let* s := get_self in
  match connection s with
  | None =>
      raise (DP_FileNotOpenException [ArgStr "Trying to close file that is not open"])
  | Some _ =>
      except_lite connection_close (fun msg => raise (file_error msg)) ;;
      meta_del_fileName ;;
      modify_self (set_connection None) ;;
      modify_self (set_version (PyInt (-1)))
  end.

(** [createNewFile(fileName, version, force, verbose)]. *)
Definition createNewFile (fileName : string) (version : PyVal)
    (force verbose : bool) : M unit :=
  let* go :=
    if negb force then
      let* s := get_self in
      match connection s with
      | Some _ =>
          let* other := meta_get_fileName in
          raise (DP_FileAlreadyOpenException
                   [ArgStr "Trying to create a new file: %s when another file (%s) is already open";
                    ArgTuple [fileName; other]])
      | None =>
          let* isfile := os_path_isfile fileName in
          if isfile then
            let* ok := promptOnOverwrite fileName "File" in
            if negb ok then
              chatter ("Create dbfile " +:+ fileName +:+ " operation cancelled") 1 ;;
              ret false
            else
              chatter ("Deleting dbfile " +:+ fileName) 1 ;;
              os_remove fileName ;;
              ret true
          else ret true
      end
    else ret true in
  if negb go then ret tt else
  let* c := except_lite (lite_connect fileName)
              (fun msg => raise (file_error msg)) in
  modify_self (set_connection (Some c)) ;;
  modify_self (set_fileName (Some fileName)) ;;
  addTable "history" history_columns false ;;
  logMessage (PyStr "file created") ;;
  logVersion (PyStr (py_str version)).

(** ** The two states of a store *)

(** Closed: no connection, no file name in [meta], the version unset.
    Open: a connection, and [meta] names the file it is on. *)
Definition is_closed (s : BaseFile) : Prop :=
  connection s = None /\ meta_fileName s = None /\ version s = PyInt (-1).

Definition is_open (s : BaseFile) : Prop :=
  exists c, connection s = Some c /\ meta_fileName s = Some (db_path c).

(** A caller that opens and closes, catching what is raised and going on. *)
Inductive Call : Type :=
| CallOpen (fileName : string)
| CallClose.

Definition call (c : Call) : M unit :=
  match c with
  | CallOpen fileName => openFile fileName
  | CallClose => closeFile
  end.

Fixpoint run_calls (cs : list Call) (st : St) : St :=
  match cs with
  | [] => st
  | c :: rest => run_calls rest (snd (call c st))
  end.

(** ** Stores and worlds to try things on *)

(** A store open on [a.db], in a world where that file holds an empty
    history table. *)
Definition open_on_a : St :=
  mkSt (mkBaseFile 0 (Some "a.db") (PyStr "1.0") (Some (mkConnection "a.db" None)))
       (mkWorld {[ "a.db" := [mkTable "history" history_columns []] ]}
                100 [] [] [] []).

(** A new store, in a world with no files; the clock reads 100, then 101,
    then 102. *)
Definition new_store : St :=
  mkSt (__init__ 0) (mkWorld ∅ 100 [101; 102] [] [] []).

(** ** The history as the store sees it *)

(** The rows of the history table on the store's connection, when the
    table is there in the layout [createNewFile] gives it. *)
Definition history_of (st : St) : option (list Row) :=
  match connection (self st) with
  | None => None
  | Some c =>
      match files (world st) !! db_path c with
      | None => None
      | Some committed =>
          match find_table "history" (view c committed) with
          | None => None
          | Some h =>
              if String.eqb (tbl_columns h) history_columns
              then Some (tbl_rows h)
              else None
          end
      end
  end.

(** The first row of [order_by_time_desc rows], computed without sorting:
    going through the rows from the last to the first, a row replaces the
    best so far unless its time is strictly below. *)
Fixpoint newest (rows : list Row) : option Row :=
  match rows with
  | [] => None
  | r :: rest =>
      match newest rest with
      | Some r' => if sql_ltb (time_of r) (time_of r') then Some r' else Some r
      | None => Some r
      end
  end.



(** A new store whose clock stands still at 100. *)
Definition still_store : St :=
  mkSt (__init__ 0) (mkWorld ∅ 100 [] [] [] []).

(** [createNewFile] with version 1.0, then [logVersion] 2.0: on a clock
    that moves, and on one that stands still. *)
Definition two_versions : St :=
  snd ((createNewFile "f.db" (PyStr "1.0") false false ;;
        logVersion (PyStr "2.0")) new_store).

Definition two_versions_same_instant : St :=
  snd ((createNewFile "f.db" (PyStr "1.0") false false ;;
        logVersion (PyStr "2.0")) still_store).

(** A store open on a file whose history holds one message. *)
Definition only_a_message : St :=
  mkSt (mkBaseFile 0 (Some "a.db") (PyInt (-1)) (Some (mkConnection "a.db" None)))
       (mkWorld {[ "a.db" := [mkTable "history" history_columns
                                [[SqlInt 100; SqlText "message"; SqlText "file created"]]] ]}
                100 [] [] [] []).

(** A store open on a file with a table [people] of one row; the user will
    answer [x] (not a choice) and then [n]. *)
Definition people_store : St :=
  mkSt (mkBaseFile 0 (Some "a.db") (PyStr "1.0") (Some (mkConnection "a.db" None)))
       (mkWorld {[ "a.db" := [mkTable "history" history_columns [];
                              mkTable "people" "Id INT, Name TEXT"
                                [[SqlInt 1; SqlText "Ada"]]] ]}
                100 [] ["x"; "n"] [] []).

(** The store's connection is on the file [f] with nothing pending, and
    the file holds the tables [db]. *)
Definition on_file (f : string) (db : Db) (st : St) : Prop :=
  connection (self st) = Some (mkConnection f None) /\
  files (world st) !! f = Some db.

(** The same store and file, in a world where the engine takes its next
    call and fails at the one after (a full disk, say). *)
Definition people_store_failing : St :=
  mkSt (self people_store)
       (set_faults [None; Some "disk I/O error"] (world people_store)).

(** A new store in a world where [f.db] already holds a history with a
    version in it and a table [people]; the user will answer [n]. *)
Definition over_existing : St :=
  mkSt (__init__ 0)
       (mkWorld {[ "f.db" := [mkTable "history" history_columns
                                [[SqlInt 50; SqlText "version"; SqlText "0.9"]];
                              mkTable "people" "Id INT, Name TEXT"
                                [[SqlInt 1; SqlText "Ada"]]] ]}
                100 [] ["n"] [] []).

(** ** What [createNewFile] with [force] leaves of a file *)

(** Every table of [db] that is not the history is in [db'] as it was. *)
Definition others_kept (db db' : Db) : Prop :=
  forall t, In t db -> sql_name_eqb (tbl_name t) "history" = false -> In t db'.

(** The statements that name no table but the history. *)
Definition on_history (q : Sql) : Prop :=
  match q with
  | DropTableIfExists n | CreateTable n _ => n = "history"
  | _ => True
  end.

(** The store has a connection on [fileName]; the file is there, and both
    the file and what is pending on the connection have kept the other
    tables of [db]. *)
Definition file_kept (fileName : string) (db : Db) (st : St) : Prop :=
  exists c db',
    connection (self st) = Some c /\ db_path c = fileName /\
    files (world st) !! fileName = Some db' /\
    others_kept db db' /\
    (forall d, pending c = Some d -> others_kept db d).

(** Nothing was read from the terminal or written to it. *)
Definition terminal_is (i o : list string) (st : St) : Prop :=
  stdin (world st) = i /\ stdout (world st) = o.

(** What [createNewFile] does once it has its connection. *)
Definition fill_history (version : PyVal) : M unit :=
  addTable "history" history_columns false ;;
  logMessage (PyStr "file created") ;;
  logVersion (PyStr (py_str version)).

(** ** Reasoning about the monad *)

(** [m] keeps the invariant [I], whatever way it ends. *)
Definition preserves {A} (I : St -> Prop) (m : M A) : Prop :=
  forall st, I st -> I (snd (m st)).

(** [wp m Q st]: run from [st], [m] ends in an outcome and a state that
    satisfy [Q]. *)
Definition wp {A} (m : M A) (Q : Outcome A -> St -> Prop) (st : St) : Prop :=
  Q (fst (m st)) (snd (m st)).

Arguments wp : simpl never.

Arguments tick : simpl never.

Create HintDb keeps.

(** The same store and file, in a world where the engine fails at its next
    call. *)
Definition people_store_failing_now : St :=
  mkSt (self people_store)
       (set_faults [Some "disk I/O error"] (world people_store)).

(** The same world, with a user who will answer [y]. *)
Definition over_existing_yes : St :=
  mkSt (self over_existing) (set_stdin ["y"] (world over_existing)).

(** The store of [people_store] with a user who types [maybe] and then
    leaves. *)
Definition people_store_no_answer : St :=
  mkSt (self people_store) (set_stdin ["maybe"] (world people_store)).

(** The engine takes its next [n] calls. *)
Fixpoint calm (n : nat) (script : list (option string)) : bool :=
  match n, script with
  | O, _ => true
  | S _, [] => true
  | S n', None :: script' => calm n' script'
  | S _, Some _ :: _ => false
  end.

(** The store of [people_store] with a user who answers [Y]. *)
Definition people_store_yes : St :=
  mkSt (self people_store) (set_stdin ["Y"] (world people_store)).

(** A new store in the world that [two_versions] leaves, where [f.db] has
    a history with two version rows, and with one more file, [bare.db],
    that holds no table at all. *)
Definition closed_by_files : St :=
  mkSt (__init__ 0)
       (set_files (<["bare.db" := []]> (files (world two_versions)))
                  (world two_versions)).

(** The same, when the engine fails at its next call. *)
Definition closed_by_files_failing : St :=
  mkSt (self closed_by_files)
       (set_faults [Some "unable to open database file"] (world closed_by_files)).

(** ** A caller of the whole class *)

(** Every method of [BaseFile], with its arguments. *)
Inductive Method : Type :=
| MOpenFile (fileName : string)
| MCloseFile
| MCreateNewFile (fileName : string) (version : PyVal) (force verbose : bool)
| MAddTable (tableName columns : string) (force : bool)
| MDropTable (tableName : string) (force : bool)
| MLogMessage (message : PyVal)
| MLogWarning (warning : PyVal)
| MLogError (error : PyVal)
| MLogVersion (version : PyVal)
| MGetVersion.

(** The state a call leaves, whether it returned or raised. *)
Definition invoke (m : Method) (st : St) : St :=
  match m with
  | MOpenFile fileName => snd (openFile fileName st)
  | MCloseFile => snd (closeFile st)
  | MCreateNewFile fileName version force verbose =>
      snd (createNewFile fileName version force verbose st)
  | MAddTable tableName columns force => snd (addTable tableName columns force st)
  | MDropTable tableName force => snd (dropTable tableName force st)
  | MLogMessage message => snd (logMessage message st)
  | MLogWarning warning => snd (logWarning warning st)
  | MLogError error => snd (logError error st)
  | MLogVersion version => snd (logVersion version st)
  | MGetVersion => snd (getVersion st)
  end.

(** A caller that goes on after whatever is raised. *)
Fixpoint session (ms : list Method) (st : St) : St :=
  match ms with
  | [] => st
  | m :: rest => session rest (invoke m st)
  end.

(** The world of [over_existing_yes] when the engine fails at its next
    call. *)
Definition over_existing_yes_failing : St :=
  mkSt (self over_existing_yes)
       (set_faults [Some "unable to open database file"] (world over_existing_yes)).

(** The store of [people_store] when the table was created as [People]
    (SQLite keeps the spelling it was given, and takes [people] for the
    same table); the user will answer [n]. *)
Definition people_store_other_case : St :=
  mkSt (self people_store)
       (mkWorld {[ "a.db" := [mkTable "history" history_columns [];
                              mkTable "People" "Id INT, Name TEXT"
                                [[SqlInt 1; SqlText "Ada"]]] ]}
                100 [] ["n"] [] []).

(** The terminal shows [line] right after what it showed at [base], and
    whatever was printed since. *)
Definition printed_after (base : list string) (line : string) (st : St) : Prop :=
  exists out, stdout (world st) = base ++ line :: out.

(** * Properties *)

(** ** Stepping through the monad *)

Ltac unfold_monad :=
  unfold bind, ret, raise, get_self, modify_self, get_world, modify_world,
    except_lite, on_connection, engine_call in *.



Lemma preserves_ret {A} (I : St -> Prop) (a : A) : preserves I (ret a).
Proof. intros st H. exact H. Qed.

Lemma preserves_raise {A} (I : St -> Prop) (e : Exception) :
  preserves I (@raise A e).
Proof. intros st H. exact H. Qed.

Lemma preserves_bind {A B} (I : St -> Prop) (m : M A) (k : A -> M B) :
  preserves I m -> (forall a, preserves I (k a)) -> preserves I (bind m k).
Proof.
  intros Hm Hk st H. unfold bind.
  specialize (Hm st H).
  destruct (m st) as [[a|e] st1]; simpl in *.
  - apply Hk, Hm.
  - exact Hm.
Qed.

Lemma preserves_except {A} (I : St -> Prop) (m : M A) (h : string -> M A) :
  preserves I m -> (forall msg, preserves I (h msg)) ->
  preserves I (except_lite m h).
Proof.
  intros Hm Hh st H. unfold except_lite.
  specialize (Hm st H).
  destruct (m st) as [[a|e] st1]; simpl in *; [exact Hm|].
  destruct e; simpl; try exact Hm. apply Hh, Hm.
Qed.

Lemma preserves_engine_call {A} (I : St -> Prop) (op : M A) :
  (forall st, I st -> I (pop_fault st)) -> preserves I op ->
  preserves I (engine_call op).
Proof.
  intros Hp Hop st H. unfold engine_call.
  destruct (next_fault (world st)); simpl; auto.
Qed.

Lemma preserves_on_connection {A} (I : St -> Prop) (f : Connection -> M A) :
  (forall c st, connection (self st) = Some c -> I st -> I (snd (f c st))) ->
  preserves I (on_connection f).
Proof.
  intros Hf st H. unfold on_connection.
  destruct (connection (self st)) eqn:E; simpl; auto.
Qed.


Lemma wp_ret {A} (a : A) Q st : Q (Return a) st -> wp (ret a) Q st.
Proof. exact (fun H => H). Qed.

Lemma wp_raise {A} (e : Exception) (Q : Outcome A -> St -> Prop) st :
  Q (Raise e) st -> wp (raise e) Q st.
Proof. exact (fun H => H). Qed.

Lemma wp_bind {A B} (m : M A) (k : A -> M B) Q st :
  wp m (fun o st1 =>
          match o with
          | Return a => wp (k a) Q st1
          | Raise e => Q (Raise e) st1
          end) st ->
  wp (bind m k) Q st.
Proof.
  unfold wp, bind. destruct (m st) as [[a|e] st1]; simpl; auto.
Qed.

Lemma wp_except {A} (m : M A) (h : string -> M A) Q st :
  wp m (fun o st1 =>
          match o with
          | Raise (lite_Error msg) => wp (h msg) Q st1
          | _ => Q o st1
          end) st ->
  wp (except_lite m h) Q st.
Proof.
  unfold wp, except_lite. destruct (m st) as [[a|e] st1]; simpl; auto.
  destruct e; auto.
Qed.

Lemma wp_get_self Q st : Q (Return (self st)) st -> wp get_self Q st.
Proof. exact (fun H => H). Qed.

Lemma wp_modify_self f Q st :
  Q (Return tt) (mkSt (f (self st)) (world st)) -> wp (modify_self f) Q st.
Proof. exact (fun H => H). Qed.

Lemma wp_engine_call {A} (op : M A) Q st :
  (forall msg, next_fault (world st) = Some msg ->
     Q (Raise (lite_Error msg)) (pop_fault st)) ->
  (next_fault (world st) = None -> wp op Q (pop_fault st)) ->
  wp (engine_call op) Q st.
Proof.
  unfold wp, engine_call. intros Hf Hc.
  destruct (next_fault (world st)); simpl; auto.
Qed.

Lemma wp_on_connection {A} (f : Connection -> M A) Q st :
  (connection (self st) = None -> Q (Raise AttributeError) st) ->
  (forall c, connection (self st) = Some c -> wp (f c) Q st) ->
  wp (on_connection f) Q st.
Proof.
  unfold wp, on_connection. intros Hn Hs.
  destruct (connection (self st)); simpl; auto.
Qed.

Lemma wp_conseq {A} (m : M A) (Q Q' : Outcome A -> St -> Prop) st :
  wp m Q st -> (forall o st', Q o st' -> Q' o st') -> wp m Q' st.
Proof. unfold wp. auto. Qed.

Lemma wp_preserves {A} (I : St -> Prop) (m : M A) Q st :
  preserves I m -> I st -> (forall o st', I st' -> Q o st') -> wp m Q st.
Proof. unfold wp. intros Hm HI HQ. apply HQ, Hm, HI. Qed.

(** ** Invariants through the methods

    An invariant kept by the calls into the world is kept by the methods
    built from them.  [allowed] says for which statements [execute] is
    known to keep it. *)
Section Invariant.
Variable I : St -> Prop.
Variable allowed : Sql -> Prop.
Hypothesis I_time : preserves I time_time.
Hypothesis I_execute : forall q, allowed q -> preserves I (execute q).
Hypothesis I_commit : preserves I commit.
Hypothesis I_rollback : preserves I rollback.
Hypothesis I_chatter : forall message level, preserves I (chatter message level).
Hypothesis I_prompt :
  forall entity entityType, preserves I (promptOnOverwrite entity entityType).

Lemma inv_get_self : preserves I get_self.
Proof. intros st H. exact H. Qed.

Hint Resolve preserves_ret preserves_raise preserves_bind preserves_except
  inv_get_self : keeps.

Lemma inv_getVersion : allowed SelectVersions -> preserves I getVersion.
Proof.
  intros Ha. unfold getVersion. apply preserves_except; auto with keeps.
  apply preserves_bind; auto with keeps.
  intros [|r rows]; auto with keeps.
Qed.

Lemma inv__addHistory type event :
  (forall t, allowed (InsertHistory t type event)) ->
  preserves I (_addHistory type event).
Proof.
  intros Ha. unfold _addHistory. apply preserves_bind; auto with keeps.
  intros s. destruct (connection s); auto 10 with keeps.
Qed.

Lemma inv_addTable_check tableName :
  allowed (SelectTableNamed tableName) ->
  preserves I (addTable_check tableName).
Proof.
  intros Ha. unfold addTable_check.
  apply preserves_except; auto with keeps.
  apply preserves_bind; auto with keeps.
  intros rows. destruct (0 <? length rows)%nat; auto with keeps.
  apply preserves_bind; auto with keeps.
  intros [|]; simpl; auto 10 with keeps.
Qed.

Lemma inv_addTable_apply tableName columns :
  allowed (DropTableIfExists tableName) ->
  allowed (CreateTable tableName columns) ->
  preserves I (addTable_apply tableName columns).
Proof.
  intros Hd Hc. unfold addTable_apply.
  apply preserves_except; auto 10 with keeps.
  intros msg. apply preserves_bind; auto with keeps.
  apply preserves_bind; auto with keeps.
  intros s'. destruct (connection s'); auto with keeps.
Qed.

Lemma inv_addTable tableName columns force :
  allowed (SelectTableNamed tableName) ->
  allowed (DropTableIfExists tableName) ->
  allowed (CreateTable tableName columns) ->
  preserves I (addTable tableName columns force).
Proof.
  intros Hs Hd Hc. unfold addTable. apply preserves_bind; auto with keeps.
  intros s. destruct (connection s); auto with keeps.
  apply preserves_bind.
  - destruct force; simpl; auto with keeps. apply inv_addTable_check, Hs.
  - intros [|]; simpl; auto with keeps. apply inv_addTable_apply; assumption.
Qed.
End Invariant.

(** ** What the calls into the world leave alone in [self]

    A property of [self] that does not look at what is pending on the
    connection is kept by everything but the assignments to [self]. *)
Section StoreInvariant.
Variable P : BaseFile -> Prop.
Hypothesis P_pending :
  forall s c d, connection s = Some c -> P s ->
    P (set_connection (Some (mkConnection (db_path c) d)) s).

Let I (st : St) : Prop := P (self st).

Lemma keeps_time_time : preserves I time_time.
Proof. intros st H. exact H. Qed.

Lemma keeps_print line : preserves I (print line).
Proof. intros st H. exact H. Qed.

Lemma keeps_chatter message level : preserves I (chatter message level).
Proof.
  intros st H. unfold chatter, bind, get_self.
  destruct (level >=? _); exact H.
Qed.

Lemma keeps_promptOnOverwrite entity entityType :
  preserves I (promptOnOverwrite entity entityType).
Proof.
  intros st H. unfold promptOnOverwrite.
  destruct (prompt_loop _ _ _ _) as [[r rest] out]. exact H.
Qed.

Lemma keeps_os_path_isfile path : preserves I (os_path_isfile path).
Proof. intros st H. exact H. Qed.

Lemma keeps_os_remove path : preserves I (os_remove path).
Proof.
  intros st H. unfold os_remove. destruct (_ !! _); exact H.
Qed.

Lemma keeps_lite_connect path : preserves I (lite_connect path).
Proof.
  intros st H. unfold lite_connect, engine_call.
  destruct (next_fault _); exact H.
Qed.

Lemma keeps_execute q : preserves I (execute q).
Proof.
  intros st H. unfold execute, on_connection, engine_call.
  destruct (connection (self st)) as [c|] eqn:Hc; [|exact H].
  destruct (next_fault _); [exact H|].
  simpl. destruct (_ !! _); [|exact H].
  destruct (statement_kind q).
  - destruct (sql_run _ _) as [msg|[db' rows]]; exact H.
  - destruct (sql_run _ _) as [msg|[db' rows]]; [exact H|].
    apply P_pending; assumption.
  - destruct (pending c);
      destruct (sql_run _ _) as [msg|[db' rows]]; simpl;
      try exact H; apply P_pending; assumption.
Qed.

Lemma keeps_commit : preserves I commit.
Proof.
  intros st H. unfold commit, on_connection, engine_call.
  destruct (connection (self st)) as [c|] eqn:Hc; [|exact H].
  destruct (next_fault _); [exact H|].
  destruct (pending c); [|exact H].
  apply P_pending; assumption.
Qed.

Lemma keeps_rollback : preserves I rollback.
Proof.
  intros st H. unfold rollback, on_connection, engine_call.
  destruct (connection (self st)) as [c|] eqn:Hc; [|exact H].
  destruct (next_fault _); [exact H|].
  apply P_pending; assumption.
Qed.

Lemma keeps_connection_close : preserves I connection_close.
Proof.
  intros st H. unfold connection_close, on_connection, engine_call.
  destruct (connection (self st)) as [c|] eqn:Hc; [|exact H].
  destruct (next_fault _); [exact H|].
  apply P_pending; assumption.
Qed.

Lemma keeps_get_self : preserves I get_self.
Proof. intros st H. exact H. Qed.

Lemma keeps_getVersion : preserves I getVersion.
Proof.
  apply (inv_getVersion I (fun _ => True)); [|exact Logic.I].
  intros q _. apply keeps_execute.
Qed.

Lemma keeps__addHistory type event : preserves I (_addHistory type event).
Proof.
  apply (inv__addHistory I (fun _ => True));
    [apply keeps_time_time|intros q _; apply keeps_execute|apply keeps_commit|].
  intros t. exact Logic.I.
Qed.

Lemma keeps_addTable tableName columns force :
  preserves I (addTable tableName columns force).
Proof.
  apply (inv_addTable I (fun _ => True));
    try exact Logic.I;
    [intros q _; apply keeps_execute|apply keeps_commit|apply keeps_rollback
    |apply keeps_chatter|apply keeps_promptOnOverwrite].
Qed.
End StoreInvariant.

(** ** The two-state machine *)

Lemma is_open_pending (s : BaseFile) (c : Connection) (d : option Db) :
  connection s = Some c -> is_open s ->
  is_open (set_connection (Some (mkConnection (db_path c) d)) s).
Proof.
  intros Hc [c' [Hc' Hf]]. rewrite Hc in Hc'. injection Hc' as <-.
  eexists. split; [reflexivity|exact Hf].
Qed.

Lemma openFile_state (fileName : string) (st : St) :
  is_closed (self st) \/ is_open (self st) ->
  wp (openFile fileName)
     (fun _ st' => is_closed (self st') \/ is_open (self st')) st.
Proof.
  intros H. unfold openFile.
  apply wp_bind, wp_get_self.
  destruct (connection (self st)) as [c|] eqn:Hc; [exact H|].
  apply wp_bind. unfold wp at 1, os_path_isfile; simpl.
  destruct (files (world st) !! fileName); simpl; [|exact H].
  apply wp_bind, wp_except. unfold lite_connect.
  apply wp_engine_call; [intros msg _; exact H|intros _].
  unfold wp at 1; simpl.
  apply wp_bind, wp_modify_self, wp_bind, wp_modify_self.
  apply (wp_preserves (fun st' => is_open (self st'))).
  - apply preserves_bind; [apply keeps_getVersion, is_open_pending|].
    intros v. apply preserves_bind.
    + intros st1 [c1 [H1 H2]]. exists c1. split; assumption.
    + intros _. apply preserves_bind; [apply keeps_get_self|].
      intros s'. apply keeps_chatter.
  - eexists. split; reflexivity.
  - intros _ st' Ho. right. exact Ho.
Qed.

Lemma closeFile_state (st : St) :
  is_closed (self st) \/ is_open (self st) ->
  wp closeFile (fun _ st' => is_closed (self st') \/ is_open (self st')) st.
Proof.
  intros H. unfold closeFile.
  apply wp_bind, wp_get_self.
  destruct (connection (self st)) as [c|] eqn:Hc; [|exact H].
  assert (Ho : is_open (self st)).
  { destruct H as [[Hn _]|Ho]; [congruence|exact Ho]. }
  apply wp_bind, wp_except.
  apply (wp_preserves (fun st' => is_open (self st'))).
  - apply keeps_connection_close, is_open_pending.
  - exact Ho.
  - intros o st1 Ho1. destruct o as [[]|e].
    + apply wp_bind. unfold wp at 1, meta_del_fileName.
      destruct Ho1 as [c1 [Hc1 Hf1]]. rewrite Hf1. simpl.
      apply wp_bind, wp_modify_self, wp_modify_self.
      left. repeat split.
    + destruct e; right; exact Ho1.
Qed.

Lemma run_calls_state (cs : list Call) (st : St) :
  is_closed (self st) \/ is_open (self st) ->
  is_closed (self (run_calls cs st)) \/ is_open (self (run_calls cs st)).
Proof.
  revert st. induction cs as [|c cs IH]; intros st H; [exact H|].
  simpl. apply IH. destruct c as [fileName|]; simpl.
  - exact (openFile_state fileName st H).
  - exact (closeFile_state st H).
Qed.

Lemma closed_not_open (s : BaseFile) : ~ (is_closed s /\ is_open s).
Proof. intros [[Hn _] [c [Hc _]]]. congruence. Qed.

(** [openFile] returns only from a store that had no connection, and
    leaves it open on the file. *)
Lemma openFile_opens (fileName : string) (st : St) :
  wp (openFile fileName)
     (fun o st' =>
        o = Return tt ->
        connection (self st) = None /\
        is_open (self st') /\
        exists c, connection (self st') = Some c /\ db_path c = fileName) st.
Proof.
  unfold openFile.
  apply wp_bind, wp_get_self.
  destruct (connection (self st)) as [c|] eqn:Hc; [discriminate|].
  apply wp_bind. unfold wp at 1, os_path_isfile; simpl.
  destruct (files (world st) !! fileName); simpl; [|discriminate].
  apply wp_bind, wp_except. unfold lite_connect.
  apply wp_engine_call; [intros msg _; discriminate|intros _].
  unfold wp at 1; simpl.
  apply wp_bind, wp_modify_self, wp_bind, wp_modify_self.
  set (P := fun s : BaseFile =>
              exists c, connection s = Some c /\ db_path c = fileName /\
                        meta_fileName s = Some fileName).
  assert (Hp : forall s c d, connection s = Some c -> P s ->
                 P (set_connection (Some (mkConnection (db_path c) d)) s)).
  { intros s c d Hs (c' & Hc' & Hd & Hm). rewrite Hs in Hc'.
    injection Hc' as <-. eexists. split; [reflexivity|]. auto. }
  apply (wp_preserves (fun st' => P (self st'))).
  - apply preserves_bind; [apply (keeps_getVersion P Hp)|].
    intros v. apply preserves_bind.
    + intros st1 H1. exact H1.
    + intros _. apply preserves_bind; [apply (keeps_get_self P)|].
      intros s'. apply (keeps_chatter P).
  - eexists. repeat split.
  - intros _ st' (c & Hc' & Hd & Hm) _. split; [reflexivity|]. split.
    + exists c. split; [exact Hc'|]. rewrite Hd. exact Hm.
    + eauto.
Qed.

(** [closeFile] returns only from a store that had a connection, and leaves
    it closed. *)
Lemma closeFile_closes_store (st st' : St) :
  closeFile st = (Return tt, st') ->
  connection (self st) <> None /\ is_closed (self st').
Proof.
  unfold closeFile, bind, get_self.
  destruct (connection (self st)) as [c|] eqn:Hc; [|discriminate].
  unfold except_lite.
  destruct (connection_close st) as [[[]|e] st1]; [|destruct e; discriminate].
  unfold meta_del_fileName.
  destruct (meta_fileName (self st1)); [|discriminate].
  unfold modify_self. simpl. intros H. injection H as <-.
  split; [discriminate|repeat split].
Qed.

(** C1.  From a new store, after any sequence of [openFile] and [closeFile]
    calls (each may return or raise), the store is closed or open and never
    both.  In that state [openFile] on an open store raises
    [DP_FileAlreadyOpenException], [closeFile] on a closed store raises
    [DP_FileNotOpenException], and either leaves [self] (version and
    connection among it) and the world exactly as they were; an [openFile]
    that returns started from the closed store and leaves it open, on the
    file named; a [closeFile] that returns started from the open store and
    leaves it closed.  The two refusals do not depend on how the state was
    reached: [openFile] on any store that holds a connection, and
    [closeFile] on any store that holds none, raise and change nothing. *)
Theorem store_two_state_machine (verbosity : Z) (w : World) (cs : list Call) :
  let st := run_calls cs (mkSt (__init__ verbosity) w) in
  (is_closed (self st) \/ is_open (self st)) /\
  ~ (is_closed (self st) /\ is_open (self st)) /\
  (forall fileName,
     is_open (self st) ->
     openFile fileName st = (Raise (DP_FileAlreadyOpenException []), st)) /\
  (is_closed (self st) ->
   closeFile st =
     (Raise (DP_FileNotOpenException
               [ArgStr "Trying to close file that is not open"]), st)) /\
  (forall fileName st',
     openFile fileName st = (Return tt, st') ->
     is_closed (self st) /\ is_open (self st') /\
     exists c, connection (self st') = Some c /\ db_path c = fileName) /\
  (forall st',
     closeFile st = (Return tt, st') ->
     is_open (self st) /\ is_closed (self st')) /\
  (forall (s : St) (c : Connection) fileName,
     connection (self s) = Some c ->
     openFile fileName s = (Raise (DP_FileAlreadyOpenException []), s)) /\
  (forall s : St,
     connection (self s) = None ->
     closeFile s =
       (Raise (DP_FileNotOpenException
                 [ArgStr "Trying to close file that is not open"]), s)).
Proof.
  intros st.
  assert (Hst : is_closed (self st) \/ is_open (self st)).
  { apply run_calls_state. left. repeat split. }
  split; [exact Hst|]. split; [apply closed_not_open|].
  split; [|split; [|split; [|split; [|split]]]].
  - intros fileName [c [Hc _]]. unfold openFile, bind, get_self.
    rewrite Hc. reflexivity.
  - intros [Hn _]. unfold closeFile, bind, get_self.
    rewrite Hn. reflexivity.
  - intros fileName st' Hrun.
    pose proof (openFile_opens fileName st) as H. unfold wp in H.
    rewrite Hrun in H. destruct (H eq_refl) as (Hn & Ho & Hc).
    split; [|split; assumption].
    destruct Hst as [Hcl|[c [Hc' _]]]; [exact Hcl|congruence].
  - intros st' Hrun.
    destruct (closeFile_closes_store st st' Hrun) as [Hn Hcl].
    split; [|exact Hcl].
    destruct Hst as [[Hc _]|Ho]; [contradiction|exact Ho].
  - intros s c fileName Hc. unfold openFile, bind, get_self.
    rewrite Hc. reflexivity.
  - intros s Hn. unfold closeFile, bind, get_self.
    rewrite Hn. reflexivity.
Qed.

(** Both states are reached: from a new store, in a world where [f.db]
    holds a history with a version, one [openFile] leaves the store open;
    there a second [openFile] is refused, and [closeFile] returns and
    leaves the store closed. *)
Lemma store_two_state_machine_witness :
  let st := run_calls [CallOpen "f.db"] (mkSt (__init__ 0) (world closed_by_files)) in
  is_closed (self (mkSt (__init__ 0) (world closed_by_files))) /\
  is_open (self st) /\
  openFile "f.db" st = (Raise (DP_FileAlreadyOpenException []), st) /\
  fst (closeFile st) = Return tt /\
  is_closed (self (snd (closeFile st))).
Proof.
  intros st.
  destruct (store_two_state_machine 0 (world closed_by_files) [CallOpen "f.db"])
    as (_ & _ & Hopen & _ & _ & Hclose & _).
  fold st in Hopen, Hclose.
  assert (Ho : is_open (self st)).
  { exists (mkConnection "f.db" None). split; vm_compute; reflexivity. }
  assert (E : closeFile st = (Return tt, snd (closeFile st))).
  { vm_compute. reflexivity. }
  split; [repeat split|]. split; [exact Ho|].
  split; [exact (Hopen "f.db" Ho)|].
  split; [rewrite E; reflexivity|].
  exact (proj2 (Hclose _ E)).
Defined.

(** ** [createNewFile] on a store that is open *)

(** C6, as the code has it.  With [force] false, [createNewFile] on an open
    store raises [DP_FileAlreadyOpenException], built with the format
    string and the two file names, and changes neither [self] nor the
    world.  (With [force] true the check is not made: see
    [createNewFile_force_on_open_store].) *)
Theorem createNewFile_already_open
    (fileName : string) (v : PyVal) (verbose : bool) (st : St) :
  is_open (self st) ->
  exists other,
    meta_fileName (self st) = Some other /\
    createNewFile fileName v false verbose st =
      (Raise (DP_FileAlreadyOpenException
                [ArgStr "Trying to create a new file: %s when another file (%s) is already open";
                 ArgTuple [fileName; other]]), st).
Proof.
  intros [c [Hc Hf]]. exists (db_path c). split; [exact Hf|].
  unfold createNewFile, bind, get_self, meta_get_fileName. simpl.
  rewrite Hc, Hf. reflexivity.
Qed.

Lemma createNewFile_already_open_witness :
  exists other,
    meta_fileName (self open_on_a) = Some other /\
    createNewFile "b.db" (PyStr "2.0") false false open_on_a =
      (Raise (DP_FileAlreadyOpenException
                [ArgStr "Trying to create a new file: %s when another file (%s) is already open";
                 ArgTuple ["b.db"; other]]), open_on_a).
Proof.
  apply (createNewFile_already_open "b.db" (PyStr "2.0") false open_on_a).
  exists (mkConnection "a.db" None). split; reflexivity.
Defined.

(** C6 as stated fails for [force] true: on the open store [open_on_a] the
    call returns, the file [b.db] now exists and the store's connection is
    a new one on it. *)
Lemma createNewFile_force_on_open_store :
  let r := createNewFile "b.db" (PyStr "2.0") true false open_on_a in
  is_open (self open_on_a) /\
  fst r = Return tt /\
  connection (self (snd r)) = Some (mkConnection "b.db" None) /\
  files (world open_on_a) !! "b.db" = None /\
  files (world (snd r)) !! "b.db" =
    Some [mkTable "history" history_columns
            [[SqlInt 100; SqlText "message"; SqlText "file created"];
             [SqlInt 100; SqlText "version"; SqlText "2.0"]]].
Proof.
  split; [exists (mkConnection "a.db" None); split; reflexivity|].
  vm_compute. repeat split.
Qed.

(** ** [dropTable] *)

(** C8, at a store that was never opened: [dropTable] returns, where the
    claim wants [DP_FileNotOpenException] as [addTable] raises it. *)
Theorem dropTable_on_closed_store
    (tableName : string) (force : bool) (verbosity : Z) (w : World) :
  let st := mkSt (__init__ verbosity) w in
  connection (self st) = None /\
  dropTable tableName force st = (Return tt, st) /\
  addTable tableName "Id INT" force st = (Raise (DP_FileNotOpenException []), st).
Proof. repeat split. Qed.

(** ** The cached version *)

Lemma version_pending (v0 : PyVal) (s : BaseFile) (c : Connection) (d : option Db) :
  connection s = Some c -> version s = v0 ->
  version (set_connection (Some (mkConnection (db_path c) d)) s) = v0.
Proof. intros _ H. exact H. Qed.

(** [createNewFile] never assigns [self.version]. *)
Lemma createNewFile_keeps_version
    (fileName : string) (v : PyVal) (force verbose : bool) (st : St) :
  version (self (snd (createNewFile fileName v force verbose st))) =
  version (self st).
Proof.
  set (I := fun st' : St => version (self st') = version (self st)).
  assert (Hp : forall s c d, connection s = Some c ->
                 version s = version (self st) ->
                 version (set_connection (Some (mkConnection (db_path c) d)) s)
                 = version (self st)) by (intros; assumption).
  assert (H : preserves I (createNewFile fileName v force verbose)).
  { unfold createNewFile. apply preserves_bind.
    - destruct force; simpl; [apply preserves_ret|].
      apply preserves_bind; [apply (keeps_get_self (fun s => version s = _))|].
      intros s. destruct (connection s).
      + apply preserves_bind; [|intros; apply preserves_raise].
        intros st1 H1. unfold meta_get_fileName.
        destruct (meta_fileName _); exact H1.
      + apply preserves_bind; [apply (keeps_os_path_isfile (fun s => version s = _))|].
        intros [|]; [|apply preserves_ret].
        apply preserves_bind; [apply (keeps_promptOnOverwrite (fun s => version s = _))|].
        intros [|]; simpl.
        * apply preserves_bind; [apply (keeps_chatter (fun s => version s = _))|].
          intros _. apply preserves_bind; [|intros; apply preserves_ret].
          apply (keeps_os_remove (fun s => version s = _)).
        * apply preserves_bind; [|intros; apply preserves_ret].
          apply (keeps_chatter (fun s => version s = _)).
    - intros [|]; simpl; [|apply preserves_ret].
      apply preserves_bind.
      + apply preserves_except; [|intros; apply preserves_raise].
        apply (keeps_lite_connect (fun s => version s = _)).
      + intros c. apply preserves_bind; [intros st1 H1; exact H1|].
        intros _. apply preserves_bind; [intros st1 H1; exact H1|].
        intros _. apply preserves_bind; [apply (keeps_addTable _ Hp)|].
        intros _. apply preserves_bind; [apply (keeps__addHistory _ Hp)|].
        intros _. apply (keeps__addHistory _ Hp). }
  apply H. reflexivity.
Qed.

(** C9, at a new store and a fresh path: [createNewFile] returns, the store
    is open on the file and [getVersion] reads the version just written,
    but the cached [version] is still the unset [-1]. *)
Theorem createNewFile_version_unset :
  let r := createNewFile "f.db" (PyStr "1.0") false false new_store in
  files (world new_store) !! "f.db" = None /\
  fst r = Return tt /\
  connection (self (snd r)) = Some (mkConnection "f.db" None) /\
  fst (getVersion (snd r)) = Return (PyStr "1.0") /\
  version (self (snd r)) = PyInt (-1).
Proof. vm_compute. repeat split. Qed.

(** [openFile], where it returns, has cached what [getVersion] returned. *)
Lemma openFile_caches_version (fileName : string) (st : St) :
  wp (openFile fileName)
     (fun o st' =>
        o = Return tt ->
        exists st1 st2 v,
          getVersion st1 = (Return v, st2) /\ version (self st') = v) st.
Proof.
  unfold openFile.
  apply wp_bind, wp_get_self.
  destruct (connection (self st)); [discriminate|].
  apply wp_bind. unfold wp at 1, os_path_isfile; simpl.
  destruct (files (world st) !! fileName); simpl; [|discriminate].
  apply wp_bind, wp_except. unfold lite_connect.
  apply wp_engine_call; [intros msg _; discriminate|intros _].
  unfold wp at 1; simpl.
  apply wp_bind, wp_modify_self, wp_bind, wp_modify_self, wp_bind.
  unfold wp at 1.
  match goal with |- context [getVersion ?s] =>
    destruct (getVersion s) as [[v|e] st2] eqn:Hg end; simpl; [|discriminate].
  apply wp_bind, wp_modify_self, wp_bind, wp_get_self.
  apply (wp_preserves (fun st' => version (self st') = v)).
  - apply (keeps_chatter (fun s => version s = v)).
  - reflexivity.
  - intros o st' Hv _. eauto.
Qed.

(** ** The order of stored values *)








(** ** The first row of the sorted version rows *)

Lemma head_insert_desc (r : Row) (sorted : list Row) :
  head (insert_desc r sorted) =
  match head sorted with
  | Some r' => if sql_ltb (time_of r) (time_of r') then Some r' else Some r
  | None => Some r
  end.
Proof.
  destruct sorted as [|r' rest]; simpl; [reflexivity|].
  destruct (sql_ltb _ _); reflexivity.
Qed.

Lemma head_order_by_time_desc (rows : list Row) :
  head (order_by_time_desc rows) = newest rows.
Proof.
  induction rows as [|r rest IH]; simpl; [reflexivity|].
  rewrite head_insert_desc, IH. reflexivity.
Qed.




(** ** [getVersion] *)

(** What [getVersion] does on a store that sees a history, when the engine
    takes the query. *)
Lemma getVersion_run (st : St) (rows : list Row) :
  history_of st = Some rows ->
  next_fault (world st) = None ->
  getVersion st =
    (match newest (List.filter is_version rows) with
     | Some r => payload r
     | None => Raise IndexError
     end, pop_fault st).
Proof.
  unfold history_of. intros Hh Hf.
  destruct (connection (self st)) as [c|] eqn:Hc; [|discriminate].
  destruct (files (world st) !! db_path c) as [committed|] eqn:Hd; [|discriminate].
  destruct (find_table "history" (view c committed)) as [h|] eqn:Ht; [|discriminate].
  destruct (String.eqb (tbl_columns h) history_columns) eqn:Hl; [|discriminate].
  injection Hh as <-.
  unfold getVersion, except_lite, bind, execute, on_connection, engine_call.
  rewrite Hc, Hf. simpl. rewrite Hd. simpl. rewrite Ht, Hl. simpl.
  rewrite <- head_order_by_time_desc.
  destruct (order_by_time_desc _) as [|r sorted]; simpl; [reflexivity|].
  unfold payload. destruct (nth_error r 2); reflexivity.
Qed.

(** C7, as the code has it.  On a store that sees a history with no
    version row in it, [getVersion] (when the engine takes the query)
    raises Python's own [IndexError], the exception of [rows[0]] on the
    empty result: a failure, and not the return of the unset [-1]. *)
Theorem getVersion_no_version (st : St) (rows : list Row) :
  history_of st = Some rows ->
  next_fault (world st) = None ->
  (forall x, In x rows -> is_version x = false) ->
  getVersion st = (Raise IndexError, pop_fault st) /\
  fst (getVersion st) <> Return (PyInt (-1)).
Proof.
  intros Hh Hf Hx.
  assert (He : List.filter is_version rows = []).
  { clear Hh. induction rows as [|r rows IH]; simpl; [reflexivity|].
    rewrite (Hx r (or_introl eq_refl)). apply IH.
    intros x Hin. apply Hx. right. exact Hin. }
  rewrite (getVersion_run st rows Hh Hf), He. simpl.
  split; [reflexivity|discriminate].
Qed.

(** With the clock moving between the two entries, the later one wins. *)
Example later_version_wins :
  history_of two_versions =
    Some [[SqlInt 100; SqlText "message"; SqlText "file created"];
          [SqlInt 101; SqlText "version"; SqlText "1.0"];
          [SqlInt 102; SqlText "version"; SqlText "2.0"]] /\
  fst (getVersion two_versions) = Return (PyStr "2.0").
Proof. vm_compute. split; reflexivity. Qed.

(** C3.  [getVersion] sorts by time alone.  While the clock moves between
    two version entries the later one is returned, as the claim says
    ([later_version_wins]).  Written in the same second, the two entries
    carry the same time; SQLite hands rows of equal time back in the order
    they were inserted, so [rows[0]] is the entry inserted first:
    [createNewFile] with version 1.0 and then [logVersion] of 2.0, both
    returning, leave [getVersion] returning 1.0, the version that was
    superseded, and not 2.0, the current one. *)
Theorem same_instant_resolves_first :
  fst ((createNewFile "f.db" (PyStr "1.0") false false ;;
        logVersion (PyStr "2.0")) still_store) = Return tt /\
  history_of two_versions_same_instant =
    Some [[SqlInt 100; SqlText "message"; SqlText "file created"];
          [SqlInt 100; SqlText "version"; SqlText "1.0"];
          [SqlInt 100; SqlText "version"; SqlText "2.0"]] /\
  fst (getVersion two_versions_same_instant) = Return (PyStr "1.0") /\
  fst (getVersion two_versions_same_instant) <> Return (PyStr "2.0").
Proof. vm_compute. repeat split. discriminate. Qed.

Lemma getVersion_no_version_witness :
  getVersion only_a_message = (Raise IndexError, pop_fault only_a_message) /\
  fst (getVersion only_a_message) <> Return (PyInt (-1)).
Proof.
  apply (getVersion_no_version only_a_message
           [[SqlInt 100; SqlText "message"; SqlText "file created"]]).
  - vm_compute. reflexivity.
  - vm_compute. reflexivity.
  - intros x [<-|[]]. reflexivity.
Defined.

(** C7 as stated fails: the program has no error of its own for a history
    without a version.  What is raised is none of its four exceptions
    ([DP_FileError] among them), it is [IndexError]. *)
Lemma getVersion_no_version_is_IndexError :
  history_of only_a_message =
    Some [[SqlInt 100; SqlText "message"; SqlText "file created"]] /\
  fst (getVersion only_a_message) = Raise IndexError /\
  (forall args, fst (getVersion only_a_message) <>
                Raise (DP_FileAlreadyOpenException args)) /\
  (forall args, fst (getVersion only_a_message) <>
                Raise (DP_FileNotFoundException args)) /\
  (forall args, fst (getVersion only_a_message) <>
                Raise (DP_FileNotOpenException args)) /\
  (forall args, fst (getVersion only_a_message) <> Raise (DP_FileError args)).
Proof.
  assert (E : fst (getVersion only_a_message) = Raise IndexError)
    by (vm_compute; reflexivity).
  rewrite E. split; [vm_compute; reflexivity|].
  repeat split; intros args; discriminate.
Qed.

(** ** Names and literals *)

Lemma word_char_not_quote (c : ascii) :
  is_word_char c = true -> Ascii.eqb c quote = false.
Proof.
  destruct c as [[] [] [] [] [] [] [] []]; vm_compute; congruence.
Qed.

Lemma quote_free_literal (s : string) :
  quote_free s = true -> sql_literal s = Some s.
Proof.
  induction s as [|c s IH]; simpl; [reflexivity|].
  destruct (Ascii.eqb c quote); simpl; [discriminate|].
  intros H. rewrite (IH H). reflexivity.
Qed.

Lemma word_quote_free (s : string) :
  all_chars is_word_char s = true -> quote_free s = true.
Proof.
  induction s as [|c s IH]; simpl; [reflexivity|].
  intros H. apply andb_prop in H. destruct H as [Hc Hs].
  rewrite (word_char_not_quote c Hc), (IH Hs). reflexivity.
Qed.

Lemma nonfancy_literal (s : string) :
  nonfancy s = true -> sql_literal s = Some s.
Proof.
  intros H. apply quote_free_literal, word_quote_free.
  destruct s as [|c s]; [discriminate|].
  unfold nonfancy in H. apply andb_prop in H. apply H.
Qed.

(** ** [addTable] when the gate denies *)

(** X24.  On an open store that sees a table stored under exactly the
    name given, letter for letter (a nonfancy word, as the docstring asks),
    when the engine takes the query and the user's answer to
    [promptOnOverwrite] is no, [addTable] with [force] false returns without
    raising and leaves [self] (with what is pending on the connection) and
    every file as they were: the table keeps its columns and its rows. *)
Theorem addTable_denied_is_noop
    (tableName columns : string) (st : St) (c : Connection) (committed : Db)
    (t : Table) (rest out : list string) :
  connection (self st) = Some c ->
  files (world st) !! db_path c = Some committed ->
  In t (view c committed) ->
  tbl_name t = tableName ->
  nonfancy tableName = true ->
  next_fault (world st) = None ->
  prompt_loop tableName "table" false (stdin (world st)) = (Return false, rest, out) ->
  exists st',
    addTable tableName columns false st = (Return tt, st') /\
    self st' = self st /\
    files (world st') = files (world st).
Proof.
  intros Hc Hd Hin Hn Hw Hf Hp.
  assert (Hrows : exists r rows,
            map (fun t => [SqlText (tbl_name t)])
                (List.filter (fun t => String.eqb (tbl_name t) tableName)
                             (view c committed)) = r :: rows).
  { assert (Hin' : In t (List.filter (fun t => String.eqb (tbl_name t) tableName)
                                     (view c committed))).
    { apply filter_In. split; [exact Hin|]. rewrite Hn. apply String.eqb_refl. }
    destruct (List.filter _ _) as [|t' l]; [destruct Hin'|].
    simpl. eauto. }
  destruct Hrows as (r & rows & Hrows).
  unfold addTable, addTable_check, bind, get_self. rewrite Hc. simpl.
  unfold except_lite, bind, execute, on_connection, engine_call.
  rewrite Hc, Hf. simpl. rewrite Hd. simpl.
  rewrite (nonfancy_literal _ Hw), Hrows. simpl.
  unfold promptOnOverwrite. simpl. rewrite Hp. simpl.
  unfold chatter, bind, get_self. simpl.
  destruct (1 >=? meta_verbosity (self st)); simpl; eauto.
Qed.

Lemma addTable_denied_is_noop_witness :
  exists st',
    addTable "people" "Id INT" false people_store = (Return tt, st') /\
    self st' = self people_store /\
    files (world st') = files (world people_store).
Proof.
  eapply (addTable_denied_is_noop "people" "Id INT" people_store).
  - reflexivity.
  - vm_compute. reflexivity.
  - simpl. right. left. reflexivity.
  - reflexivity.
  - reflexivity.
  - reflexivity.
  - vm_compute. reflexivity.
Defined.

(** C5.  The table is there under another spelling.  [addTable] looks the
    name up in [sqlite_master] letter for letter and finds nothing, so the
    user, who would have said no, is not asked; [DROP TABLE IF EXISTS] then
    takes [people] and [People] for the same table and drops it.  The call
    returns, nothing was read from the terminal or printed, and the table
    with its row is gone, an empty one in its place. *)
Theorem addTable_other_case_not_asked :
  let st := people_store_other_case in
  let r := addTable "people" "Id INT" false st in
  is_open (self st) /\
  files (world st) !! "a.db" =
    Some [mkTable "history" history_columns [];
          mkTable "People" "Id INT, Name TEXT" [[SqlInt 1; SqlText "Ada"]]] /\
  stdin (world st) = ["n"] /\
  fst r = Return tt /\
  stdin (world (snd r)) = ["n"] /\
  stdout (world (snd r)) = stdout (world st) /\
  files (world (snd r)) !! "a.db" =
    Some [mkTable "history" history_columns [];
          mkTable "people" "Id INT" []].
Proof.
  split; [exists (mkConnection "a.db" None); split; reflexivity|].
  vm_compute. repeat split.
Qed.

(** ** Creating a file and reading its version *)

Lemma files_tick (w : World) : files (tick w) = files w.
Proof. unfold tick. destruct (later w); reflexivity. Qed.

Lemma faults_tick (w : World) : faults (tick w) = faults w.
Proof. unfold tick. destruct (later w); reflexivity. Qed.

Lemma next_fault_tick (w : World) : next_fault (tick w) = next_fault w.
Proof. unfold next_fault. rewrite faults_tick. reflexivity. Qed.

Lemma stdin_tick (w : World) : stdin (tick w) = stdin w.
Proof. unfold tick. destruct (later w); reflexivity. Qed.

Lemma stdout_tick (w : World) : stdout (tick w) = stdout w.
Proof. unfold tick. destruct (later w); reflexivity. Qed.

Lemma calm_next (n : nat) (w : World) :
  calm (S n) (faults w) = true -> next_fault w = None.
Proof.
  unfold next_fault. destruct (faults w) as [|[msg|] l]; simpl;
    [reflexivity|discriminate|reflexivity].
Qed.

Lemma calm_tl (n : nat) (l : list (option string)) :
  calm (S n) l = true -> calm n (tl l) = true.
Proof.
  destruct l as [|[msg|] l]; simpl; [|discriminate|auto].
  intros _. destruct n; reflexivity.
Qed.


Lemma calm_weaken (n m : nat) (l : list (option string)) :
  calm (n + m) l = true -> calm n l = true.
Proof.
  revert l. induction n as [|n IH]; intros l H; [reflexivity|].
  destruct l as [|[msg|] l]; simpl in *; [reflexivity|discriminate|].
  apply IH, H.
Qed.

Lemma wp_engine_calm {A} (n : nat) (op : M A) Q st :
  calm (S n) (faults (world st)) = true ->
  wp op Q (pop_fault st) ->
  wp (engine_call op) Q st.
Proof.
  intros Hcalm H. apply wp_engine_call; [|intros _; exact H].
  intros msg Hm. rewrite (calm_next _ _ Hcalm) in Hm. discriminate.
Qed.

Ltac wp_step :=
  lazymatch goal with
  | |- wp (bind _ _) _ _ => apply wp_bind
  | |- wp (ret _) _ _ => apply wp_ret
  | |- wp (raise _) _ _ => apply wp_raise
  | |- wp get_self _ _ => apply wp_get_self
  | |- wp (modify_self _) _ _ => apply wp_modify_self
  | |- wp (except_lite _ _) _ _ => apply wp_except
  end.

(** A call on the connection, which is known: from the state itself or
    from a hypothesis about it. *)
Ltac use_connection :=
  match goal with
  | Hc : connection _ = Some _ |- _ => rewrite Hc
  end.

Ltac wp_conn :=
  apply wp_on_connection;
  [simpl; try use_connection; try discriminate
  |let c := fresh "c" in let H := fresh "H" in
   intros c H; simpl in H;
   try match goal with
       | Hc : connection _ = Some _ |- _ =>
           tryif constr_eq Hc H then fail else rewrite Hc in H
       end;
   injection H as <-].

(** The branch where something was raised and the claim is about returns. *)
Ltac wp_fail :=
  repeat (simpl;
          first [ wp_step
                | progress unfold rollback
                | wp_conn
                | apply wp_engine_call; [intros ? _|intros _; unfold wp at 1]
                | use_connection ]);
  simpl; try discriminate.

(** A call into the engine: the fault is one such branch. *)
Ltac wp_engine :=
  apply wp_engine_call; [intros ? _; wp_fail|intros _; unfold wp at 1; simpl].

Lemma find_drop_table (name : string) (db : Db) :
  find_table name (drop_table name db) = None.
Proof.
  unfold find_table, drop_table.
  induction db as [|t db IH]; simpl; [reflexivity|].
  destruct (sql_name_eqb (tbl_name t) name) eqn:E; simpl; [exact IH|].
  rewrite E. exact IH.
Qed.

Lemma history_of_on_file (f : string) (db : Db) (st : St) :
  on_file f db st ->
  history_of st =
    match find_table "history" db with
    | Some h =>
        if String.eqb (tbl_columns h) history_columns
        then Some (tbl_rows h) else None
    | None => None
    end.
Proof.
  intros [Hc Hd]. unfold history_of. rewrite Hc. simpl. rewrite Hd.
  reflexivity.
Qed.


(** [addTable] where no table has the name: nobody is asked, and where it
    returns the table is in the file, new and empty. *)
Lemma addTable_fresh (tableName columns f : string) (db : Db) (st : St) :
  on_file f db st ->
  nonfancy tableName = true ->
  String.eqb columns "" = false ->
  List.filter (fun t => String.eqb (tbl_name t) tableName) db = [] ->
  wp (addTable tableName columns false)
     (fun o st' =>
        o = Return tt ->
        on_file f (drop_table tableName db ++ [mkTable tableName columns []]) st')
     st.
Proof.
  intros [Hc Hd] Hw Hcols Hnew. unfold addTable, addTable_check, addTable_apply.
  repeat wp_step. rewrite Hc. simpl. repeat wp_step.
  unfold execute at 1. wp_conn. wp_engine.
  rewrite Hd. simpl. unfold view. simpl.
  rewrite (nonfancy_literal _ Hw), Hnew. simpl.
  repeat wp_step. simpl. repeat wp_step.
  unfold execute at 1. wp_conn. wp_engine.
  rewrite Hd. simpl. rewrite Hw. unfold view. simpl.
  repeat wp_step.
  unfold execute at 1. wp_conn. wp_engine.
  rewrite lookup_insert_eq. simpl. rewrite Hw, Hcols. simpl.
  unfold view. simpl. rewrite find_drop_table.
  unfold commit at 1. wp_conn. wp_engine.
  intros _. split; [exact Hc|]. simpl. apply lookup_insert_eq.
Qed.





(** ** [addTable] when the engine fails half way *)

(** C4, at two failing inputs.  The store is open on a file with a table
    [people] of one row.  [addTable] with an empty column text: the engine
    takes [DROP TABLE] and refuses [CREATE TABLE people()].  [addTable]
    with a good column text where the engine fails at its second call:
    the same.  Both times [DP_FileError] is raised after the [rollback],
    and the table [people] with its row is gone from the file: the
    [sqlite3] module ran [DROP TABLE] outside any transaction, so there
    was nothing for [rollback] to undo. *)
Theorem addTable_failure_loses_table :
  let people := mkTable "people" "Id INT, Name TEXT" [[SqlInt 1; SqlText "Ada"]] in
  let history := mkTable "history" history_columns [] in
  let r1 := addTable "people" "" true people_store in
  let r2 := addTable "people" "Id INT" true people_store_failing in
  files (world people_store) !! "a.db" = Some [history; people] /\
  fst r1 = Raise (file_error "near ): syntax error") /\
  files (world (snd r1)) !! "a.db" = Some [history] /\
  files (world people_store_failing) !! "a.db" = Some [history; people] /\
  fst r2 = Raise (file_error "disk I/O error") /\
  files (world (snd r2)) !! "a.db" = Some [history].
Proof. vm_compute. repeat split. Qed.

(** ** [createNewFile] with [force] on a file that exists *)

Lemma others_kept_refl (db : Db) : others_kept db db.
Proof. intros t H _. exact H. Qed.

Lemma append_row_other (r : Row) (t : Table) (d : Db) :
  In t d -> sql_name_eqb (tbl_name t) "history" = false ->
  In t (append_row "history" r d).
Proof.
  intros Hin Hn. induction d as [|x d IH]; simpl; [destruct Hin|].
  destruct Hin as [->|Hin].
  - rewrite Hn. left. reflexivity.
  - destruct (sql_name_eqb (tbl_name x) "history"); right; auto.
Qed.

Lemma sql_run_others_kept (q : Sql) (db d d' : Db) (rows : list Row) :
  on_history q -> sql_run q d = inr (d', rows) ->
  others_kept db d -> others_kept db d'.
Proof.
  intros Hq Hrun Hk. destruct q as [n|n|n cols|t ty ev|]; simpl in *.
  - destruct (sql_literal n); [|discriminate]. injection Hrun as <- _. exact Hk.
  - subst n. simpl in Hrun. injection Hrun as <- _.
    intros t Hin Hn. apply filter_In. split; [apply Hk; assumption|].
    rewrite Hn. reflexivity.
  - subst n. simpl in Hrun.
    destruct (String.eqb cols ""); [discriminate|].
    destruct (find_table "history" d); [discriminate|].
    injection Hrun as <- _.
    intros t Hin Hn. apply in_or_app. left. apply Hk; assumption.
  - destruct (find_table "history" d) as [h|]; [|discriminate].
    destruct (negb _); [discriminate|].
    destruct (sql_literal ty); [|discriminate].
    destruct (sql_literal ev); [|discriminate].
    injection Hrun as <- _.
    intros x Hin Hn. apply append_row_other; [apply Hk; assumption|exact Hn].
  - destruct (find_table "history" d) as [h|]; [|discriminate].
    destruct (negb _); [discriminate|].
    injection Hrun as <- _. exact Hk.
Qed.

Section FileKept.
Variable fileName : string.
Variable db : Db.

Let K := file_kept fileName db.

Lemma file_kept_world (st : St) (w : World) :
  files w = files (world st) -> K st -> K (mkSt (self st) w).
Proof.
  intros Hw (c & db' & Hc & Hp & Hf & Hk & Hd).
  exists c, db'. simpl. rewrite Hw. auto.
Qed.

Lemma kept_time_time : preserves K time_time.
Proof.
  intros st H. apply file_kept_world; [apply files_tick|exact H].
Qed.

Lemma kept_chatter message level : preserves K (chatter message level).
Proof.
  intros st H. unfold chatter, bind, get_self.
  destruct (level >=? _); [|exact H].
  apply file_kept_world; [reflexivity|exact H].
Qed.

Lemma kept_promptOnOverwrite entity entityType :
  preserves K (promptOnOverwrite entity entityType).
Proof.
  intros st H. unfold promptOnOverwrite.
  destruct (prompt_loop _ _ _ _) as [[r rest] out].
  apply file_kept_world; [reflexivity|exact H].
Qed.

Lemma kept_pop (st : St) : K st -> K (pop_fault st).
Proof. apply file_kept_world. reflexivity. Qed.

Lemma kept_execute q : on_history q -> preserves K (execute q).
Proof.
  intros Hq st H. unfold execute, on_connection, engine_call.
  destruct H as (c & db' & Hc & Hp & Hf & Hk & Hd).
  rewrite Hc.
  assert (Hpop : K (pop_fault st)) by (apply kept_pop; exists c, db'; auto).
  destruct (next_fault _); [exact Hpop|].
  simpl. rewrite Hp, Hf.
  assert (Hv : others_kept db (view c db')).
  { unfold view. destruct (pending c) as [d|] eqn:E; [apply Hd; reflexivity|exact Hk]. }
  destruct (statement_kind q).
  - destruct (sql_run _ _) as [msg|[d' rows]]; exact Hpop.
  - destruct (sql_run _ _) as [msg|[d' rows]] eqn:Hrun; [exact Hpop|].
    exists (mkConnection fileName (Some d')), db'. simpl.
    repeat split; try assumption.
    intros d Hd'. injection Hd' as <-.
    exact (sql_run_others_kept q db _ _ _ Hq Hrun Hv).
  - destruct (sql_run _ _) as [msg|[d' rows]] eqn:Hrun; simpl.
    + destruct (pending c) as [d|] eqn:E; [|exact Hpop].
      exists (mkConnection fileName None), d. simpl.
      repeat split; [apply lookup_insert_eq|apply Hd; reflexivity|discriminate].
    + assert (Hk' : others_kept db d')
        by exact (sql_run_others_kept q db _ _ _ Hq Hrun Hv).
      destruct (pending c) as [d|] eqn:E.
      * exists (mkConnection fileName None), d'. simpl.
        repeat split; [apply lookup_insert_eq|exact Hk'|discriminate].
      * exists c, d'. simpl. rewrite Hp.
        repeat split; [exact Hc|apply lookup_insert_eq|exact Hk'|].
        rewrite E. discriminate.
Qed.

Lemma kept_commit : preserves K commit.
Proof.
  intros st H. unfold commit, on_connection, engine_call.
  destruct H as (c & db' & Hc & Hp & Hf & Hk & Hd).
  rewrite Hc.
  assert (Hpop : K (pop_fault st)) by (apply kept_pop; exists c, db'; auto).
  destruct (next_fault _); [exact Hpop|].
  destruct (pending c) as [d|] eqn:E; [|exact Hpop].
  exists (mkConnection fileName None), d. simpl. rewrite Hp.
  repeat split; [apply lookup_insert_eq|apply Hd; reflexivity|discriminate].
Qed.

Lemma kept_rollback : preserves K rollback.
Proof.
  intros st H. unfold rollback, on_connection, engine_call.
  destruct H as (c & db' & Hc & Hp & Hf & Hk & Hd).
  rewrite Hc.
  assert (Hpop : K (pop_fault st)) by (apply kept_pop; exists c, db'; auto).
  destruct (next_fault _); [exact Hpop|].
  exists (mkConnection fileName None), db'. simpl. rewrite Hp.
  repeat split; [exact Hf|exact Hk|discriminate].
Qed.

Lemma kept_fill_history version : preserves K (fill_history version).
Proof.
  unfold fill_history, logMessage, logVersion.
  apply preserves_bind.
  - apply (inv_addTable K on_history); try reflexivity;
      [apply kept_execute|apply kept_commit|apply kept_rollback
      |apply kept_chatter|apply kept_promptOnOverwrite].
  - intros _. apply preserves_bind; [|intros _];
      (apply (inv__addHistory K on_history);
       [apply kept_time_time|apply kept_execute|apply kept_commit
       |intros t; exact Logic.I]).
Qed.
End FileKept.

Section Terminal.
Variable i o : list string.

Let T := terminal_is i o.

Lemma quiet_time_time : preserves T time_time.
Proof.
  intros st [Hi Ho]. split; simpl; [rewrite stdin_tick|rewrite stdout_tick];
    assumption.
Qed.

Lemma quiet_execute q : preserves T (execute q).
Proof.
  intros st H. unfold execute, on_connection, engine_call.
  destruct (connection (self st)) as [c|]; [|exact H].
  destruct (next_fault _); [exact H|].
  simpl. destruct (_ !! _); [|exact H].
  destruct (statement_kind q);
    destruct (sql_run _ _) as [msg|[d' rows]];
    try destruct (pending c); exact H.
Qed.

Lemma quiet_commit : preserves T commit.
Proof.
  intros st H. unfold commit, on_connection, engine_call.
  destruct (connection (self st)) as [c|]; [|exact H].
  destruct (next_fault _); [exact H|].
  destruct (pending c); exact H.
Qed.

Lemma quiet_rollback : preserves T rollback.
Proof.
  intros st H. unfold rollback, on_connection, engine_call.
  destruct (connection (self st)) as [c|]; [|exact H].
  destruct (next_fault _); exact H.
Qed.

Lemma quiet__addHistory type event : preserves T (_addHistory type event).
Proof.
  apply (inv__addHistory T (fun _ => True));
    [apply quiet_time_time|intros q _; apply quiet_execute|apply quiet_commit|].
  intros t. exact Logic.I.
Qed.

Lemma quiet_addTable_apply tableName columns :
  preserves T (addTable_apply tableName columns).
Proof.
  apply (inv_addTable_apply T (fun _ => True)); try exact Logic.I;
    [intros q _; apply quiet_execute|apply quiet_commit|apply quiet_rollback].
Qed.
End Terminal.

(** With no table named history in the file, filling the history asks
    nobody and prints nothing. *)
Lemma fill_history_silent (f : string) (db : Db) (version : PyVal) (st : St) :
  on_file f db st ->
  List.filter (fun t => String.eqb (tbl_name t) "history") db = [] ->
  wp (fill_history version)
     (fun _ st' => terminal_is (stdin (world st)) (stdout (world st)) st') st.
Proof.
  intros [Hc Hd] Hnew.
  unfold fill_history, addTable, addTable_check, logMessage, logVersion.
  repeat wp_step. rewrite Hc. simpl. repeat wp_step.
  unfold execute at 1. wp_conn.
  apply wp_engine_call;
    [intros msg _; wp_fail; split; reflexivity
    |intros _; unfold wp at 1; simpl].
  rewrite Hd. simpl. unfold view. simpl. rewrite Hnew. simpl.
  repeat wp_step. simpl.
  apply (wp_preserves (terminal_is (stdin (world st)) (stdout (world st))));
    [apply quiet_addTable_apply|split; reflexivity|].
  intros [[]|e] st1 H1; [|exact H1].
  apply (wp_preserves (terminal_is (stdin (world st)) (stdout (world st))));
    [|exact H1|intros _ st' H; exact H].
  apply preserves_bind; [|intros _]; apply quiet__addHistory.
Qed.

(** ** What has been printed stays printed *)

Lemma prompt_loop_starts (entity entityType : string) (minimal : bool)
    (lines : list string) :
  exists out,
    snd (prompt_loop entity entityType minimal lines) =
    prompt_text entity entityType minimal :: out.
Proof.
  destruct lines as [|line rest]; simpl; [eauto|].
  destruct (lookup_response (upper line)); simpl; [eauto|].
  destruct (prompt_loop entity entityType true rest) as [[r rest'] out].
  simpl. eauto.
Qed.

Section Printed.
Variable base : list string.
Variable line : string.

Let J := printed_after base line.

Lemma printed_of_quiet {A} (m : M A) :
  (forall i o, preserves (terminal_is i o) m) -> preserves J m.
Proof.
  intros Hq st [out Hout].
  destruct (Hq (stdin (world st)) (stdout (world st)) st) as [_ Ho];
    [split; reflexivity|].
  exists out. rewrite Ho. exact Hout.
Qed.

Lemma printed_chatter message level : preserves J (chatter message level).
Proof.
  intros st [out Hout]. unfold chatter, bind, get_self. simpl.
  destruct (level >=? _); simpl; [|exists out; exact Hout].
  exists (out ++ [message]). rewrite Hout, <- app_assoc. reflexivity.
Qed.

Lemma printed_promptOnOverwrite entity entityType :
  preserves J (promptOnOverwrite entity entityType).
Proof.
  intros st [out Hout]. unfold promptOnOverwrite.
  destruct (prompt_loop _ _ _ _) as [[r rest] out']. simpl.
  exists (out ++ out'). rewrite Hout, <- app_assoc. reflexivity.
Qed.

Lemma printed__addHistory type event : preserves J (_addHistory type event).
Proof.
  apply printed_of_quiet. intros i o. apply quiet__addHistory.
Qed.

Lemma printed_addTable_apply tableName columns :
  preserves J (addTable_apply tableName columns).
Proof.
  apply printed_of_quiet. intros i o. apply quiet_addTable_apply.
Qed.
End Printed.

(** Where the file has a table called exactly [history], [fill_history]
    gets to the prompt of [addTable] once the engine has taken the
    look-up. *)
Lemma fill_history_asks (f : string) (db : Db) (version : PyVal) (st : St)
    (t : Table) :
  on_file f db st ->
  In t db -> tbl_name t = "history" ->
  next_fault (world st) = None ->
  wp (fill_history version)
     (fun _ st' =>
        printed_after (stdout (world st)) (prompt_text "history" "table" false) st')
     st.
Proof.
  intros [Hc Hd] Hin Hn Hf.
  assert (Hrows : exists r rows,
            map (fun t => [SqlText (tbl_name t)])
                (List.filter (fun t => String.eqb (tbl_name t) "history") db)
            = r :: rows).
  { assert (Hin' : In t (List.filter (fun t => String.eqb (tbl_name t) "history") db)).
    { apply filter_In. split; [exact Hin|]. rewrite Hn. reflexivity. }
    destruct (List.filter _ _) as [|t' l]; [destruct Hin'|].
    simpl. eauto. }
  destruct Hrows as (r & rows & Hrows).
  set (J := printed_after (stdout (world st)) (prompt_text "history" "table" false)).
  assert (Hrest : forall st1, J st1 ->
            wp (logMessage (PyStr "file created");;
                logVersion (PyStr (py_str version)))
               (fun _ st' => J st') st1).
  { intros st1 H1. apply (wp_preserves J); [|exact H1|intros _ st' H; exact H].
    apply preserves_bind; [|intros _]; apply printed__addHistory. }
  unfold fill_history, addTable, addTable_check.
  repeat wp_step. rewrite Hc. simpl. repeat wp_step.
  unfold execute at 1. wp_conn.
  apply wp_engine_call; [intros msg Hm; congruence|intros _].
  unfold wp at 1. simpl.
  rewrite Hd. simpl. unfold view. simpl. rewrite Hrows. simpl.
  repeat wp_step. unfold wp at 1, promptOnOverwrite. simpl.
  destruct (prompt_loop_starts "history" "table" false (stdin (world st)))
    as (out & Hout).
  destruct (prompt_loop "history" "table" false (stdin (world st)))
    as [[answer rest] out'] eqn:Hp.
  simpl in Hout. subst out'. simpl.
  match goal with |- context [mkSt ?s ?w] =>
    assert (H0 : J (mkSt s w)) by (exists out; reflexivity)
  end.
  destruct answer as [[|]|e]; simpl.
  - repeat wp_step. simpl.
    apply (wp_preserves J); [apply printed_addTable_apply|exact H0|].
    intros [[]|e] st1 H1; [|exact H1]. apply Hrest, H1.
  - repeat wp_step.
    apply (wp_preserves J); [apply printed_chatter|exact H0|].
    intros [[]|e] st1 H1; [|destruct e; exact H1].
    repeat (first [apply Hrest; exact H1 | wp_step | progress simpl]).
  - destruct e; exact H0.
Qed.

Lemma wp_both {A} (m : M A) (Q1 Q2 : Outcome A -> St -> Prop) (st : St) :
  wp m Q1 st -> wp m Q2 st -> wp m (fun o st' => Q1 o st' /\ Q2 o st') st.
Proof. unfold wp. auto. Qed.

(** C10, as the code has it.  When a file exists at [fileName],
    [createNewFile] with [force] true, on any store (open or not):
    - leaves the file in place, and in it every table whose name is not
      [history] in any case of letters ([History] counts as the history)
      exactly as it was;
    - does not stop at a connection already held: when the engine takes the
      connect, the store ends with a connection on [fileName];
    - asks nobody and prints nothing when no table of the file is called
      [history] letter for letter;
    - when a table of the file is called [history] letter for letter and
      the engine takes the connect and the look-up, gets to the prompt of
      [addTable]: the warning about the table [history] is printed, right
      after what the terminal showed before the call. *)
Theorem createNewFile_force_keeps_file
    (fileName : string) (v : PyVal) (verbose : bool) (st : St) (db : Db) :
  files (world st) !! fileName = Some db ->
  let r := createNewFile fileName v true verbose st in
  (exists db',
     files (world (snd r)) !! fileName = Some db' /\ others_kept db db') /\
  (next_fault (world st) = None ->
   exists c, connection (self (snd r)) = Some c /\ db_path c = fileName) /\
  (List.filter (fun t => String.eqb (tbl_name t) "history") db = [] ->
   stdin (world (snd r)) = stdin (world st) /\
   stdout (world (snd r)) = stdout (world st)) /\
  (forall t, In t db -> tbl_name t = "history" ->
   calm 2 (faults (world st)) = true ->
   exists out,
     stdout (world (snd r)) =
     stdout (world st) ++ prompt_text "history" "table" false :: out).
Proof.
  intros Hf r. subst r.
  change (wp (createNewFile fileName v true verbose)
            (fun _ st' =>
               (exists db',
                  files (world st') !! fileName = Some db' /\ others_kept db db') /\
               (next_fault (world st) = None ->
                exists c, connection (self st') = Some c /\ db_path c = fileName) /\
               (List.filter (fun t => String.eqb (tbl_name t) "history") db = [] ->
                stdin (world st') = stdin (world st) /\
                stdout (world st') = stdout (world st)) /\
               (forall t, In t db -> tbl_name t = "history" ->
                calm 2 (faults (world st)) = true ->
                printed_after (stdout (world st))
                  (prompt_text "history" "table" false) st')) st).
  unfold createNewFile. simpl negb. cbv iota.
  repeat wp_step. simpl. repeat wp_step. unfold lite_connect.
  apply wp_engine_call.
  - intros msg Hm. wp_fail. split; [|split; [|split]].
    + exists db. split; [exact Hf|apply others_kept_refl].
    + rewrite Hm. discriminate.
    + intros _. split; reflexivity.
    + intros t _ _ Hc2. rewrite (calm_next 1 _ Hc2) in Hm. discriminate.
  - intros Hcalm. unfold wp at 1. simpl. rewrite Hf.
    do 2 (apply wp_bind, wp_modify_self). simpl.
    change (addTable "history" history_columns false;;
            logMessage (PyStr "file created");;
            logVersion (PyStr (py_str v)))
      with (fill_history v).
    apply wp_both; [|apply wp_both; [|apply wp_both]].
    + apply (wp_preserves (file_kept fileName db));
        [apply kept_fill_history| |].
      * exists (mkConnection fileName None), db. simpl.
        repeat split; [exact Hf|apply others_kept_refl|discriminate].
      * intros _ st' (c & db' & _ & _ & Hf' & Hk & _). eauto.
    + apply (wp_preserves (file_kept fileName db));
        [apply kept_fill_history| |].
      * exists (mkConnection fileName None), db. simpl.
        repeat split; [exact Hf|apply others_kept_refl|discriminate].
      * intros _ st' (c & db' & Hc & Hp & _) _. eauto.
    + unfold wp. intros Hn.
      refine (fill_history_silent fileName db v _ _ Hn).
      split; [reflexivity|exact Hf].
    + unfold wp. intros t Hin Hname Hc2.
      refine (fill_history_asks fileName db v _ t _ Hin Hname _).
      * split; [reflexivity|exact Hf].
      * apply (calm_next 0). exact (calm_tl 1 _ Hc2).
Qed.

Lemma createNewFile_force_keeps_file_witness :
  let r := createNewFile "f.db" (PyStr "1.0") true false over_existing in
  (exists db',
     files (world (snd r)) !! "f.db" = Some db' /\
     others_kept
       [mkTable "history" history_columns
          [[SqlInt 50; SqlText "version"; SqlText "0.9"]];
        mkTable "people" "Id INT, Name TEXT" [[SqlInt 1; SqlText "Ada"]]] db') /\
  (next_fault (world over_existing) = None ->
   exists c, connection (self (snd r)) = Some c /\ db_path c = "f.db") /\
  (List.filter (fun t => String.eqb (tbl_name t) "history")
     [mkTable "history" history_columns
        [[SqlInt 50; SqlText "version"; SqlText "0.9"]];
      mkTable "people" "Id INT, Name TEXT" [[SqlInt 1; SqlText "Ada"]]] = [] ->
   stdin (world (snd r)) = stdin (world over_existing) /\
   stdout (world (snd r)) = stdout (world over_existing)) /\
  (forall t,
     In t [mkTable "history" history_columns
             [[SqlInt 50; SqlText "version"; SqlText "0.9"]];
           mkTable "people" "Id INT, Name TEXT" [[SqlInt 1; SqlText "Ada"]]] ->
     tbl_name t = "history" ->
     calm 2 (faults (world over_existing)) = true ->
     exists out,
       stdout (world (snd r)) =
       stdout (world over_existing) ++ prompt_text "history" "table" false :: out).
Proof.
  apply (createNewFile_force_keeps_file "f.db" (PyStr "1.0") false over_existing).
  vm_compute. reflexivity.
Defined.

(** C10 as stated fails where the file already has a history table: the
    user is asked about the table (here the answer [n] is read and the
    prompt for the table printed), and the file does not stay as it was:
    two rows are added to the history it had. *)
Lemma createNewFile_force_asks_about_history :
  let r := createNewFile "f.db" (PyStr "1.0") true false over_existing in
  stdin (world over_existing) = ["n"] /\
  stdout (world over_existing) = [] /\
  fst r = Return tt /\
  stdin (world (snd r)) = [] /\
  stdout (world (snd r)) =
    [prompt_text "history" "table" false; stars;
     "Add table history operation cancelled"] /\
  files (world (snd r)) !! "f.db" =
    Some [mkTable "history" history_columns
            [[SqlInt 50; SqlText "version"; SqlText "0.9"];
             [SqlInt 100; SqlText "message"; SqlText "file created"];
             [SqlInt 100; SqlText "version"; SqlText "1.0"]];
          mkTable "people" "Id INT, Name TEXT" [[SqlInt 1; SqlText "Ada"]]].
Proof. vm_compute. repeat split. Qed.


(** * More of the code *)

(** ** Methods on a store that is not open *)

(** X1.  [openFile] on a store with no connection, for a path with no
    file: [DP_FileNotFoundException] with the message that names the path;
    nothing changes, the engine is not called. *)
Theorem openFile_not_found (fileName : string) (st : St) :
  connection (self st) = None ->
  files (world st) !! fileName = None ->
  openFile fileName st =
    (Raise (DP_FileNotFoundException
              [ArgStr ("File " +:+ fileName +:+ " could not be found")]), st).
Proof.
  intros Hc Hf. unfold openFile, bind, get_self, os_path_isfile.
  rewrite Hc, Hf. reflexivity.
Qed.

Lemma openFile_not_found_witness :
  openFile "f.db" new_store =
    (Raise (DP_FileNotFoundException
              [ArgStr ("File " +:+ "f.db" +:+ " could not be found")]), new_store).
Proof.
  apply (openFile_not_found "f.db" new_store).
  - reflexivity.
  - vm_compute. reflexivity.
Defined.

(** X2.  With no connection, [addTable] (whatever [force]) and the four
    log wrappers raise [DP_FileNotOpenException] and change nothing (the
    clock is not read); [getVersion] has no such check and raises
    [AttributeError], from calling [cursor] on [None]. *)
Theorem methods_on_closed_store
    (tableName columns : string) (force : bool) (v : PyVal) (st : St) :
  connection (self st) = None ->
  addTable tableName columns force st = (Raise (DP_FileNotOpenException []), st) /\
  logMessage v st = (Raise (DP_FileNotOpenException []), st) /\
  logWarning v st = (Raise (DP_FileNotOpenException []), st) /\
  logError v st = (Raise (DP_FileNotOpenException []), st) /\
  logVersion v st = (Raise (DP_FileNotOpenException []), st) /\
  getVersion st = (Raise AttributeError, st).
Proof.
  intros Hc.
  unfold addTable, logMessage, logWarning, logError, logVersion, _addHistory,
    getVersion, except_lite, bind, get_self, execute, on_connection.
  rewrite Hc. repeat split.
Qed.

Lemma methods_on_closed_store_witness :
  addTable "people" "Id INT" true new_store =
    (Raise (DP_FileNotOpenException []), new_store) /\
  logMessage (PyStr "hello") new_store = (Raise (DP_FileNotOpenException []), new_store) /\
  logWarning (PyStr "hello") new_store = (Raise (DP_FileNotOpenException []), new_store) /\
  logError (PyStr "hello") new_store = (Raise (DP_FileNotOpenException []), new_store) /\
  logVersion (PyStr "hello") new_store = (Raise (DP_FileNotOpenException []), new_store) /\
  getVersion new_store = (Raise AttributeError, new_store).
Proof.
  apply (methods_on_closed_store "people" "Id INT" true (PyStr "hello") new_store).
  reflexivity.
Defined.

(** ** [closeFile] on an open store *)

(** X3.  [closeFile] on an open store, when the engine takes the close:
    it returns, and the store is closed: no connection, no file name in
    [meta], the version back to [-1], the verbosity kept.  No file
    changes: what was pending on the connection is not written. *)
Theorem closeFile_closes (st : St) :
  is_open (self st) ->
  next_fault (world st) = None ->
  closeFile st =
    (Return tt,
     mkSt (mkBaseFile (meta_verbosity (self st)) None (PyInt (-1)) None)
          (world (pop_fault st))) /\
  is_closed (mkBaseFile (meta_verbosity (self st)) None (PyInt (-1)) None) /\
  files (world (pop_fault st)) = files (world st).
Proof.
  intros (c & Hc & Hf) Hn.
  unfold closeFile, bind, get_self, except_lite, connection_close,
    on_connection, engine_call, meta_del_fileName, modify_self.
  rewrite Hc. cbv beta. rewrite Hc, Hn. simpl. rewrite Hf.
  repeat split.
Qed.

Lemma closeFile_closes_witness :
  closeFile open_on_a =
    (Return tt,
     mkSt (mkBaseFile (meta_verbosity (self open_on_a)) None (PyInt (-1)) None)
          (world (pop_fault open_on_a))) /\
  is_closed (mkBaseFile (meta_verbosity (self open_on_a)) None (PyInt (-1)) None) /\
  files (world (pop_fault open_on_a)) = files (world open_on_a).
Proof.
  apply (closeFile_closes open_on_a).
  - exists (mkConnection "a.db" None). split; reflexivity.
  - reflexivity.
Defined.

(** X4.  [closeFile] on an open store, when the engine fails at the close:
    [DP_FileError] with the engine's message, and the store stays open
    with its version, its file name and its connection. *)
Theorem closeFile_engine_failure (st : St) (msg : string) :
  is_open (self st) ->
  next_fault (world st) = Some msg ->
  closeFile st = (Raise (file_error msg), pop_fault st) /\
  self (pop_fault st) = self st.
Proof.
  intros (c & Hc & Hf) Hn.
  unfold closeFile, bind, get_self, except_lite, connection_close,
    on_connection, engine_call.
  rewrite Hc. cbv beta. rewrite Hc, Hn. split; reflexivity.
Qed.

Lemma closeFile_engine_failure_witness :
  closeFile people_store_failing_now =
    (Raise (file_error "disk I/O error"), pop_fault people_store_failing_now) /\
  self (pop_fault people_store_failing_now) = self people_store_failing_now.
Proof.
  apply (closeFile_engine_failure people_store_failing_now "disk I/O error").
  - exists (mkConnection "a.db" None). split; reflexivity.
  - reflexivity.
Defined.

(** ** The history log *)

Lemma find_append_row (r : Row) (db : Db) (h : Table) :
  find_table "history" db = Some h ->
  find_table "history" (append_row "history" r db) =
    Some (mkTable (tbl_name h) (tbl_columns h) (tbl_rows h ++ [r])).
Proof.
  unfold find_table. induction db as [|t db IH]; simpl; [discriminate|].
  destruct (sql_name_eqb (tbl_name t) "history") eqn:E; simpl.
  - intros H. injection H as <-. rewrite E. reflexivity.
  - rewrite E. exact IH.
Qed.

Lemma history_of_append (f : string) (db : Db) (rows : list Row) (r : Row)
    (st st' : St) :
  on_file f db st -> history_of st = Some rows ->
  on_file f (append_row "history" r db) st' ->
  history_of st' = Some (rows ++ [r]).
Proof.
  intros H Hh H'.
  rewrite (history_of_on_file _ _ _ H) in Hh.
  rewrite (history_of_on_file _ _ _ H').
  destruct (find_table "history" db) as [h|] eqn:Hf; [|discriminate].
  rewrite (find_append_row r db h Hf). simpl.
  destruct (String.eqb (tbl_columns h) history_columns); [|discriminate].
  injection Hh as <-. reflexivity.
Qed.

(** [_addHistory] on a store that sees a history: where it returns, SQLite
    has read the two texts as literals and the row, stamped with the
    clock's reading, is in the file after the rows that were there. *)
Lemma _addHistory_at (type event f : string) (db : Db) (rows : list Row) (st : St) :
  on_file f db st ->
  history_of st = Some rows ->
  wp (_addHistory type event)
     (fun o st' =>
        o = Return tt ->
        exists type' event',
          sql_literal type = Some type' /\ sql_literal event = Some event' /\
          on_file f (append_row "history"
                       [SqlInt (now (world st)); SqlText type'; SqlText event'] db)
                  st') st.
Proof.
  intros Hon Hh. pose proof Hon as [Hc Hd].
  rewrite (history_of_on_file _ _ _ Hon) in Hh.
  destruct (find_table "history" db) as [h|] eqn:Hf; [|discriminate].
  destruct (String.eqb (tbl_columns h) history_columns) eqn:Hl; [|discriminate].
  unfold _addHistory.
  repeat wp_step. rewrite Hc. repeat wp_step.
  unfold wp at 1. simpl.
  repeat wp_step.
  unfold execute at 1. wp_conn. wp_engine.
  rewrite files_tick, Hd. simpl. unfold view. simpl.
  rewrite Hf, Hl. simpl.
  destruct (sql_literal type) as [type'|]; [|wp_fail].
  destruct (sql_literal event) as [event'|]; [|wp_fail].
  unfold commit at 1. wp_conn. wp_engine.
  intros _. exists type', event'. repeat split.
  simpl. rewrite files_tick. apply lookup_insert_eq.
Qed.

(** X5.  The history is appended to and nothing else.  For a type and an
    event that SQLite reads as one literal each (every quote in them
    doubled): when [_addHistory] returns on a store that sees a history,
    the history is what it was followed by one row, the clock's reading,
    the type and the event as read from the literals; the file's other
    tables are as they were. *)
Theorem _addHistory_appends
    (type event type' event' f : string) (db : Db) (rows : list Row)
    (st st' : St) :
  sql_literal type = Some type' ->
  sql_literal event = Some event' ->
  on_file f db st ->
  history_of st = Some rows ->
  _addHistory type event st = (Return tt, st') ->
  exists db',
    history_of st' =
      Some (rows ++ [[SqlInt (now (world st)); SqlText type'; SqlText event']]) /\
    on_file f db' st' /\ others_kept db db'.
Proof.
  intros Hty0 Hev0 Hon Hh Hrun.
  pose proof (_addHistory_at type event f db rows st Hon Hh) as H.
  unfold wp in H. rewrite Hrun in H.
  destruct (H eq_refl) as (ty & ev & Hty & Hev & Hon').
  rewrite Hty0 in Hty. injection Hty as <-.
  rewrite Hev0 in Hev. injection Hev as <-.
  exists (append_row "history"
    [SqlInt (now (world st)); SqlText type'; SqlText event'] db).
  repeat split; try apply Hon'.
  - exact (history_of_append _ _ _ _ _ _ Hon Hh Hon').
  - intros t Hin Hn. apply append_row_other; assumption.
Qed.

Lemma _addHistory_appends_witness :
  exists db',
    history_of (snd (_addHistory "warning" "it''s late" only_a_message)) =
      Some ([[SqlInt 100; SqlText "message"; SqlText "file created"]] ++
            [[SqlInt (now (world only_a_message)); SqlText "warning";
              SqlText "it's late"]]) /\
    on_file "a.db" db' (snd (_addHistory "warning" "it''s late" only_a_message)) /\
    others_kept
      [mkTable "history" history_columns
         [[SqlInt 100; SqlText "message"; SqlText "file created"]]] db'.
Proof.
  apply (_addHistory_appends "warning" "it''s late" "warning" "it's late"
           "a.db" _ _ only_a_message).
  - reflexivity.
  - reflexivity.
  - split; [reflexivity|vm_compute; reflexivity].
  - vm_compute. reflexivity.
  - vm_compute. reflexivity.
Defined.

Lemma newest_app_last (l : list Row) (r : Row) :
  (forall x, In x l -> sql_compare (time_of x) (time_of r) = Lt) ->
  newest (l ++ [r]) = Some r.
Proof.
  induction l as [|x l IH]; intros H; [reflexivity|].
  simpl. rewrite IH by (intros y Hy; apply H; right; exact Hy).
  unfold sql_ltb. rewrite (H x (or_introl eq_refl)). reflexivity.
Qed.

Lemma filter_version_app (rows : list Row) (r : Row) :
  List.filter is_version (rows ++ [r]) =
  List.filter is_version rows ++ (if is_version r then [r] else []).
Proof. rewrite List.filter_app. reflexivity. Qed.

(** X6.  Logging a message, a warning or an error leaves the version as it
    is.  For a text that SQLite reads as one literal (every quote in it
    doubled): after a [logMessage], [logWarning] or [logError] of it that
    returns, [getVersion] (the engine taking the query both times) gives
    what it gave before. *)
Theorem log_keeps_version
    (f : string) (db : Db) (rows : list Row) (v : PyVal) (text : string)
    (st st' : St) :
  sql_literal (py_str v) = Some text ->
  on_file f db st ->
  history_of st = Some rows ->
  logMessage v st = (Return tt, st') \/
  logWarning v st = (Return tt, st') \/
  logError v st = (Return tt, st') ->
  next_fault (world st) = None ->
  next_fault (world st') = None ->
  fst (getVersion st') = fst (getVersion st).
Proof.
  intros _ Hon Hh Hlog Hn Hn'.
  assert (H : exists type' event',
             (type' = "message" \/ type' = "warning" \/ type' = "error") /\
             history_of st' =
               Some (rows ++ [[SqlInt (now (world st)); SqlText type';
                               SqlText event']])).
  { unfold logMessage, logWarning, logError in Hlog.
    destruct Hlog as [Hrun|[Hrun|Hrun]];
      match type of Hrun with
      | _addHistory ?ty ?ev _ = _ =>
          pose proof (_addHistory_at ty ev f db rows st Hon Hh) as H
      end;
      unfold wp in H; rewrite Hrun in H;
      destruct (H eq_refl) as (type' & event' & Hty & Hev & Hon');
      injection Hty as <-; eexists _, event';
      (split; [|exact (history_of_append _ _ _ _ _ _ Hon Hh Hon')]); auto. }
  destruct H as (type' & event' & Hty & Hh').
  rewrite (getVersion_run st rows Hh Hn), (getVersion_run st' _ Hh' Hn').
  rewrite filter_version_app.
  replace (is_version [SqlInt (now (world st)); SqlText type'; SqlText event'])
    with false by (destruct Hty as [->|[->| ->]]; reflexivity).
  rewrite app_nil_r. reflexivity.
Qed.

Lemma log_keeps_version_witness :
  fst (getVersion (snd (logWarning (PyStr "disk nearly full") two_versions))) =
  fst (getVersion two_versions).
Proof.
  apply (log_keeps_version "f.db"
           [mkTable "history" history_columns
              [[SqlInt 100; SqlText "message"; SqlText "file created"];
               [SqlInt 101; SqlText "version"; SqlText "1.0"];
               [SqlInt 102; SqlText "version"; SqlText "2.0"]]]
           [[SqlInt 100; SqlText "message"; SqlText "file created"];
            [SqlInt 101; SqlText "version"; SqlText "1.0"];
            [SqlInt 102; SqlText "version"; SqlText "2.0"]]
           (PyStr "disk nearly full") "disk nearly full" two_versions).
  - reflexivity.
  - split; vm_compute; reflexivity.
  - vm_compute. reflexivity.
  - right. left. vm_compute. reflexivity.
  - vm_compute. reflexivity.
  - vm_compute. reflexivity.
Defined.

(** X7.  A new version wins when the clock has moved on.  For a version
    whose text is printable ASCII and which SQLite reads as one literal
    (every quote in it doubled): after a [logVersion] that returns, written
    at a time strictly later than every version row in the history,
    [getVersion] (the engine taking the query) returns the new version, as
    read from the literal. *)
Theorem logVersion_then_getVersion
    (f : string) (db : Db) (rows : list Row) (v : PyVal) (v' : string)
    (st st' : St) :
  printable (py_str v) = true ->
  sql_literal (py_str v) = Some v' ->
  on_file f db st ->
  history_of st = Some rows ->
  (forall x, In x rows -> is_version x = true ->
             sql_compare (time_of x) (SqlInt (now (world st))) = Lt) ->
  logVersion v st = (Return tt, st') ->
  next_fault (world st') = None ->
  getVersion st' = (Return (PyStr v'), pop_fault st').
Proof.
  intros _ Hlit Hon Hh Hold Hrun Hn'. unfold logVersion in Hrun.
  pose proof (_addHistory_at "version" (py_str v) f db rows st Hon Hh) as H.
  unfold wp in H. rewrite Hrun in H.
  destruct (H eq_refl) as (type' & ev & Hty & Hev & Hon').
  injection Hty as <-. rewrite Hlit in Hev. injection Hev as <-.
  rewrite (getVersion_run st' _ (history_of_append _ _ _ _ _ _ Hon Hh Hon') Hn').
  rewrite filter_version_app. simpl.
  rewrite newest_app_last; [reflexivity|].
  intros x Hx. apply filter_In in Hx. destruct Hx as [Hx Hv].
  exact (Hold x Hx Hv).
Qed.

Lemma logVersion_then_getVersion_witness :
  getVersion (snd (logVersion (PyInt 3) only_a_message)) =
    (Return (PyStr "3"), pop_fault (snd (logVersion (PyInt 3) only_a_message))).
Proof.
  apply (logVersion_then_getVersion "a.db"
           [mkTable "history" history_columns
              [[SqlInt 100; SqlText "message"; SqlText "file created"]]]
           [[SqlInt 100; SqlText "message"; SqlText "file created"]]
           (PyInt 3) "3" only_a_message).
  - vm_compute. reflexivity.
  - vm_compute. reflexivity.
  - split; vm_compute; reflexivity.
  - vm_compute. reflexivity.
  - intros x [<-|[]]. discriminate.
  - vm_compute. reflexivity.
  - vm_compute. reflexivity.
Defined.

Ltac raised_file_error :=
  let e := fresh "e" in let He := fresh "He" in
  intros e He; injection He as <-;
  split; [simpl; rewrite ?files_tick; reflexivity|right; eexists; reflexivity].

Lemma _addHistory_raises (type event : string) (st : St) :
  wp (_addHistory type event)
     (fun o st' =>
        forall e, o = Raise e ->
          files (world st') = files (world st) /\
          (e = DP_FileNotOpenException [] \/ exists msg, e = file_error msg)) st.
Proof.
  unfold _addHistory. repeat wp_step.
  destruct (connection (self st)) as [c|] eqn:Hc.
  2:{ apply wp_raise. intros e He. injection He as <-. auto. }
  repeat wp_step. unfold wp at 1. simpl. repeat wp_step.
  unfold execute at 1. wp_conn.
  apply wp_engine_call; [intros msg _; wp_fail; raised_file_error|intros _].
  unfold wp at 1. cbn -[sql_run tick].
  destruct (files (tick (world st)) !! db_path c); [|wp_fail; raised_file_error].
  destruct (sql_run _ _) as [msg|[db' rows]]; [wp_fail; raised_file_error|].
  cbn -[sql_run tick]. unfold commit at 1. wp_conn.
  apply wp_engine_call; [intros msg _; wp_fail; raised_file_error|intros _].
  unfold wp at 1. simpl. discriminate.
Qed.

(** X8.  No half-written entry.  For a type and an event in printable
    ASCII that SQLite reads as one literal each (every quote in them
    doubled, so that the statement sent is one [INSERT] with these
    values): when [_addHistory] raises, no file has changed, and what it
    raises is [DP_FileNotOpenException] (no connection) or [DP_FileError]
    carrying the engine's message; the engine's error does not get out
    unwrapped. *)
Theorem _addHistory_failure
    (type event type' event' : string) (st st' : St) (e : Exception) :
  printable type = true -> sql_literal type = Some type' ->
  printable event = true -> sql_literal event = Some event' ->
  _addHistory type event st = (Raise e, st') ->
  files (world st') = files (world st) /\
  (e = DP_FileNotOpenException [] \/ exists msg, e = file_error msg).
Proof.
  intros _ _ _ _ Hrun. pose proof (_addHistory_raises type event st) as H.
  unfold wp in H. rewrite Hrun in H. exact (H e eq_refl).
Qed.

Lemma _addHistory_failure_witness :
  files (world (snd (_addHistory "message" "it''s late" people_store_failing_now))) =
    files (world people_store_failing_now) /\
  (file_error "disk I/O error" = DP_FileNotOpenException [] \/
   exists msg, file_error "disk I/O error" = file_error msg).
Proof.
  apply (_addHistory_failure "message" "it''s late" "message" "it's late"
           people_store_failing_now).
  - reflexivity.
  - reflexivity.
  - reflexivity.
  - reflexivity.
  - vm_compute. reflexivity.
Defined.

(** ** [createNewFile] over a file that exists *)

(** X9.  The user declines: on a store with no connection, for a path
    where a file exists, with [force] false and the answer to the prompt
    no, [createNewFile] returns without raising; the store is as it was
    (still closed), no file has changed, and the input is used up to the
    answer. *)
Theorem createNewFile_declined
    (fileName : string) (v : PyVal) (verbose : bool) (st : St) (db : Db)
    (rest out : list string) :
  connection (self st) = None ->
  files (world st) !! fileName = Some db ->
  prompt_loop fileName "File" false (stdin (world st)) = (Return false, rest, out) ->
  exists st',
    createNewFile fileName v false verbose st = (Return tt, st') /\
    self st' = self st /\
    files (world st') = files (world st) /\
    stdin (world st') = rest.
Proof.
  intros Hc Hf Hp.
  unfold createNewFile, bind, get_self, os_path_isfile, promptOnOverwrite.
  simpl. rewrite Hc, Hf, Hp. simpl.
  unfold chatter, bind, get_self. simpl.
  destruct (1 >=? meta_verbosity (self st)); simpl; eauto.
Qed.

Lemma createNewFile_declined_witness :
  exists st',
    createNewFile "f.db" (PyStr "1.0") false false over_existing = (Return tt, st') /\
    self st' = self over_existing /\
    files (world st') = files (world over_existing) /\
    stdin (world st') = [].
Proof.
  eapply (createNewFile_declined "f.db" (PyStr "1.0") false over_existing).
  - reflexivity.
  - vm_compute. reflexivity.
  - vm_compute. reflexivity.
Defined.

(** The history of a file just created. *)
Lemma fill_history_fresh (f : string) (v : PyVal) (st : St) :
  on_file f [] st ->
  wp (fill_history v)
     (fun o st1 =>
        o = Return tt ->
        exists v' t1 t2,
          sql_literal (py_str v) = Some v' /\
          on_file f
            [mkTable "history" history_columns
               [[SqlInt t1; SqlText "message"; SqlText "file created"];
                [SqlInt t2; SqlText "version"; SqlText v']]] st1) st.
Proof.
  intros Hon. unfold fill_history, logMessage, logVersion. simpl py_str.
  wp_step.
  eapply wp_conseq.
  { apply (addTable_fresh "history" history_columns f [] st Hon); reflexivity. }
  intros [[]|e] st1 H1; [|discriminate].
  specialize (H1 eq_refl). simpl in H1.
  wp_step.
  eapply wp_conseq.
  { apply (_addHistory_at "message" "file created" f _ [] st1 H1).
    rewrite (history_of_on_file _ _ _ H1). reflexivity. }
  intros [[]|e] st2 H2; [|discriminate].
  destruct (H2 eq_refl) as (ty & ev & Hty & Hev & H2').
  injection Hty as <-. injection Hev as <-. simpl in H2'.
  eapply wp_conseq.
  { apply (_addHistory_at "version" (py_str v) f _
             [[SqlInt (now (world st1)); SqlText "message"; SqlText "file created"]]
             st2 H2').
    rewrite (history_of_on_file _ _ _ H2'). reflexivity. }
  intros o st3 H3 Ho.
  destruct (H3 Ho) as (ty & v' & Hty & Hev & H3').
  injection Hty as <-. simpl in H3'.
  exists v', (now (world st1)), (now (world st2)). split; assumption.
Qed.

(** [chatter] either prints its line or does nothing. *)
Lemma wp_chatter (message : string) (level : Z) (Q : Outcome unit -> St -> Prop) st :
  Q (Return tt)
    (mkSt (self st) (set_stdout (stdout (world st) ++ [message]) (world st))) ->
  Q (Return tt) st ->
  wp (chatter message level) Q st.
Proof.
  intros Hp Hq. unfold wp, chatter, bind, get_self. simpl.
  destruct (level >=? meta_verbosity (self st)); simpl; assumption.
Qed.

Lemma createNewFile_overwrites
    (fileName : string) (v : PyVal) (verbose : bool) (st : St) (db : Db)
    (rest out : list string) :
  connection (self st) = None ->
  files (world st) !! fileName = Some db ->
  prompt_loop fileName "File" false (stdin (world st)) = (Return true, rest, out) ->
  wp (createNewFile fileName v false verbose)
     (fun o st1 =>
        o = Return tt ->
        exists v' t1 t2,
          sql_literal (py_str v) = Some v' /\
          on_file fileName
            [mkTable "history" history_columns
               [[SqlInt t1; SqlText "message"; SqlText "file created"];
                [SqlInt t2; SqlText "version"; SqlText v']]] st1) st.
Proof.
  intros Hc Hf Hp. unfold createNewFile. simpl negb. cbv iota.
  repeat wp_step. rewrite Hc.
  wp_step. unfold wp at 1, os_path_isfile. rewrite Hf. simpl.
  wp_step. unfold wp at 1, promptOnOverwrite. rewrite Hp. simpl.
  wp_step. apply wp_chatter;
    (wp_step; unfold wp at 1, os_remove; simpl; rewrite Hf; simpl;
     wp_step; simpl; repeat wp_step; unfold lite_connect;
     wp_engine; rewrite lookup_delete_eq;
     do 2 (apply wp_bind, wp_modify_self); simpl;
     change (addTable "history" history_columns false;;
             logMessage (PyStr "file created");;
             logVersion (PyStr (py_str v)))
       with (fill_history v);
     apply fill_history_fresh;
     split; [reflexivity|simpl; apply lookup_insert_eq]).
Qed.

(** X10.  The user accepts: on a store with no connection, for a path
    where a file exists, with [force] false and the answer to the prompt
    yes, for a version that SQLite reads as one literal (every quote in it
    doubled): when [createNewFile] returns the old file is gone with all
    its tables: the file holds the new history alone, with its two rows,
    the message [file created] and the version as read from the literal,
    and the store has a connection on it. *)
Theorem createNewFile_accepted
    (fileName : string) (v : PyVal) (v' : string) (verbose : bool)
    (st st1 : St) (db : Db) (rest out : list string) :
  sql_literal (py_str v) = Some v' ->
  connection (self st) = None ->
  files (world st) !! fileName = Some db ->
  prompt_loop fileName "File" false (stdin (world st)) = (Return true, rest, out) ->
  createNewFile fileName v false verbose st = (Return tt, st1) ->
  exists t1 t2,
    connection (self st1) = Some (mkConnection fileName None) /\
    files (world st1) !! fileName =
      Some [mkTable "history" history_columns
              [[SqlInt t1; SqlText "message"; SqlText "file created"];
               [SqlInt t2; SqlText "version"; SqlText v']]].
Proof.
  intros Hlit Hc Hf Hp Hrun.
  pose proof (createNewFile_overwrites fileName v verbose st db rest out Hc Hf Hp) as H.
  unfold wp in H. rewrite Hrun in H.
  destruct (H eq_refl) as (v0 & t1 & t2 & Hv & Hcon & Hfile).
  rewrite Hlit in Hv. injection Hv as <-.
  exists t1, t2. auto.
Qed.

Lemma createNewFile_accepted_witness :
  exists t1 t2,
    connection (self (snd (createNewFile "f.db" (PyStr "1.0") false false
                             over_existing_yes))) =
      Some (mkConnection "f.db" None) /\
    files (world (snd (createNewFile "f.db" (PyStr "1.0") false false
                         over_existing_yes))) !! "f.db" =
      Some [mkTable "history" history_columns
              [[SqlInt t1; SqlText "message"; SqlText "file created"];
               [SqlInt t2; SqlText "version"; SqlText "1.0"]]].
Proof.
  eapply (createNewFile_accepted "f.db" (PyStr "1.0") "1.0" false
            over_existing_yes).
  - reflexivity.
  - reflexivity.
  - vm_compute. reflexivity.
  - vm_compute. reflexivity.
  - vm_compute. reflexivity.
Defined.

(** ** The prompt *)

Lemma lookup_response_answer (b : bool) :
  lookup_response (if b then "Y" else "N") = Some b.
Proof. destruct b; reflexivity. Qed.

Lemma lookup_response_other (s : string) :
  s <> "Y" -> s <> "N" -> lookup_response s = None.
Proof.
  intros HY HN. unfold lookup_response, valid_responses.
  cbn -[String.eqb].
  destruct (String.eqb_spec "Y" s) as [E|_]; [symmetry in E; contradiction|].
  destruct (String.eqb_spec "N" s) as [E|_]; [symmetry in E; contradiction|].
  reflexivity.
Qed.

Lemma prompt_loop_skips (entity entityType : string) (bad : list string)
    (a : string) (b : bool) (rest : list string) :
  Forall (fun l => upper l <> "Y" /\ upper l <> "N") bad ->
  upper a = (if b then "Y" else "N") ->
  forall minimal,
  exists out,
    prompt_loop entity entityType minimal (bad ++ a :: rest) = (Return b, rest, out) /\
    length out = (2 * length bad + 2)%nat /\
    hd_error out = Some (prompt_text entity entityType minimal) /\
    List.last out "" = stars.
Proof.
  intros Hbad Ha. induction Hbad as [|l bad [HY HN] _ IH]; intros minimal.
  - simpl. rewrite Ha, lookup_response_answer. eexists. repeat split.
  - simpl. rewrite (lookup_response_other _ HY HN).
    destruct (IH true) as (out & -> & Hlen & Hhd & Hlast).
    eexists. split; [reflexivity|]. split; [simpl; lia|].
    split; [reflexivity|].
    destruct out as [|x out]; [discriminate|exact Hlast].
Qed.

Lemma prompt_loop_eof (entity entityType : string) (bad : list string) :
  Forall (fun l => upper l <> "Y" /\ upper l <> "N") bad ->
  forall minimal,
  exists out, prompt_loop entity entityType minimal bad = (Raise EOFError, [], out).
Proof.
  intros Hbad. induction Hbad as [|l bad [HY HN] _ IH]; intros minimal.
  - simpl. eauto.
  - simpl. rewrite (lookup_response_other _ HY HN).
    destruct (IH true) as (out & ->). eauto.
Qed.

(** X11.  [promptOnOverwrite] answers with the first line of input that
    reads [Y] or [N] once put in upper case: [True] for [Y], [False] for
    [N].  The lines before it are used up, the lines after it are left;
    the store is untouched.  What is printed starts with the full warning
    and ends with the line of stars, two lines for every line refused and
    two for the answer. *)
Theorem promptOnOverwrite_first_answer
    (entity entityType : string) (st : St) (bad : list string) (a : string)
    (b : bool) (rest : list string) :
  stdin (world st) = bad ++ a :: rest ->
  Forall (fun l => upper l <> "Y" /\ upper l <> "N") bad ->
  upper a = (if b then "Y" else "N") ->
  exists st' out,
    promptOnOverwrite entity entityType st = (Return b, st') /\
    self st' = self st /\
    files (world st') = files (world st) /\
    stdin (world st') = rest /\
    stdout (world st') = stdout (world st) ++ out /\
    length out = (2 * length bad + 2)%nat /\
    hd_error out = Some (prompt_text entity entityType false) /\
    List.last out "" = stars.
Proof.
  intros Hin Hbad Ha.
  destruct (prompt_loop_skips entity entityType bad a b rest Hbad Ha false)
    as (out & Hp & Hlen & Hhd & Hlast).
  unfold promptOnOverwrite. rewrite Hin. simpl. rewrite Hp.
  eexists _, out. repeat split; assumption.
Qed.

Lemma promptOnOverwrite_first_answer_witness :
  exists st' out,
    promptOnOverwrite "people" "table" people_store = (Return false, st') /\
    self st' = self people_store /\
    files (world st') = files (world people_store) /\
    stdin (world st') = [] /\
    stdout (world st') = stdout (world people_store) ++ out /\
    length out = (2 * length ["x"] + 2)%nat /\
    hd_error out = Some (prompt_text "people" "table" false) /\
    List.last out "" = stars.
Proof.
  apply (promptOnOverwrite_first_answer "people" "table" people_store ["x"] "n" false []).
  - reflexivity.
  - repeat constructor; discriminate.
  - reflexivity.
Defined.

(** X12.  The input ends before an answer: [addTable] without [force],
    for a table stored under exactly the name given, letter for letter,
    when no line left to read is a [Y] or an [N], raises [EOFError] as
    [raw_input] does; it is not turned into a [DP_FileError].  The store
    and the files are as they were, the table with them. *)
Theorem addTable_no_answer
    (tableName columns : string) (st : St) (c : Connection) (committed : Db)
    (t : Table) :
  connection (self st) = Some c ->
  files (world st) !! db_path c = Some committed ->
  In t (view c committed) ->
  tbl_name t = tableName ->
  nonfancy tableName = true ->
  next_fault (world st) = None ->
  Forall (fun l => upper l <> "Y" /\ upper l <> "N") (stdin (world st)) ->
  exists st',
    addTable tableName columns false st = (Raise EOFError, st') /\
    self st' = self st /\
    files (world st') = files (world st) /\
    stdin (world st') = [].
Proof.
  intros Hc Hd Hin Hn Hw Hf Hbad.
  assert (Hrows : exists r rows,
            map (fun t => [SqlText (tbl_name t)])
                (List.filter (fun t => String.eqb (tbl_name t) tableName)
                             (view c committed)) = r :: rows).
  { assert (Hin' : In t (List.filter (fun t => String.eqb (tbl_name t) tableName)
                                     (view c committed))).
    { apply filter_In. split; [exact Hin|]. rewrite Hn. apply String.eqb_refl. }
    destruct (List.filter _ _) as [|t' l]; [destruct Hin'|].
    simpl. eauto. }
  destruct Hrows as (r & rows & Hrows).
  destruct (prompt_loop_eof tableName "table" _ Hbad false) as (out & Hp).
  unfold addTable, addTable_check, bind, get_self. rewrite Hc. simpl.
  unfold except_lite, bind, execute, on_connection, engine_call.
  rewrite Hc, Hf. simpl. rewrite Hd. simpl.
  rewrite (nonfancy_literal _ Hw), Hrows. simpl.
  unfold promptOnOverwrite. simpl. rewrite Hp. simpl.
  eauto.
Qed.

Lemma addTable_no_answer_witness :
  exists st',
    addTable "people" "Id INT" false people_store_no_answer = (Raise EOFError, st') /\
    self st' = self people_store_no_answer /\
    files (world st') = files (world people_store_no_answer) /\
    stdin (world st') = [].
Proof.
  eapply (addTable_no_answer "people" "Id INT" people_store_no_answer).
  - reflexivity.
  - vm_compute. reflexivity.
  - simpl. right. left. reflexivity.
  - reflexivity.
  - reflexivity.
  - reflexivity.
  - repeat constructor; discriminate.
Defined.

(** ** Replacing a table *)

(** The second [try] of [addTable] when the engine takes its three calls:
    it returns, and the file has the table new and empty, in place of any
    table of that name. *)
Lemma addTable_apply_run (tableName columns f : string) (db : Db) (st : St) :
  on_file f db st ->
  nonfancy tableName = true ->
  String.eqb columns "" = false ->
  calm 3 (faults (world st)) = true ->
  wp (addTable_apply tableName columns)
     (fun o st' =>
        o = Return tt /\
        on_file f (drop_table tableName db ++ [mkTable tableName columns []]) st' /\
        faults (world st') = tl (tl (tl (faults (world st)))) /\
        terminal_is (stdin (world st)) (stdout (world st)) st')
     st.
Proof.
  intros [Hc Hd] Hw Hcols Hcalm. unfold addTable_apply.
  repeat wp_step.
  unfold execute at 1. wp_conn. apply (wp_engine_calm 2 _ _ _ Hcalm).
  unfold wp at 1. simpl.
  rewrite Hd. simpl. rewrite Hw. unfold view. simpl.
  repeat wp_step.
  unfold execute at 1. wp_conn.
  apply (wp_engine_calm 1); [exact (calm_tl 2 _ Hcalm)|].
  unfold wp at 1. simpl.
  rewrite lookup_insert_eq. simpl. rewrite Hw, Hcols. simpl.
  unfold view. simpl. rewrite find_drop_table.
  unfold commit at 1. wp_conn.
  apply (wp_engine_calm 0); [exact (calm_tl 1 _ (calm_tl 2 _ Hcalm))|].
  unfold wp at 1. simpl.
  split; [reflexivity|]. split; [|split; [reflexivity|split; reflexivity]].
  split; [exact Hc|]. simpl. apply lookup_insert_eq.
Qed.

Lemma addTable_force_run (tableName columns f : string) (db : Db) (st : St) :
  on_file f db st ->
  nonfancy tableName = true ->
  String.eqb columns "" = false ->
  calm 3 (faults (world st)) = true ->
  wp (addTable tableName columns true)
     (fun o st' =>
        o = Return tt /\
        on_file f (drop_table tableName db ++ [mkTable tableName columns []]) st' /\
        faults (world st') = tl (tl (tl (faults (world st)))) /\
        terminal_is (stdin (world st)) (stdout (world st)) st')
     st.
Proof.
  intros Hon Hw Hcols Hcalm. unfold addTable.
  repeat wp_step. rewrite (proj1 Hon). simpl. repeat wp_step. simpl.
  apply addTable_apply_run; assumption.
Qed.

Lemma plain_name_nonfancy (n : string) :
  plain_name n = true -> nonfancy n = true.
Proof.
  unfold plain_name. intros H.
  repeat (apply andb_prop in H; destruct H as [H _]). exact H.
Qed.

(** A column list of the plain kind is not rendered as the empty text. *)
Lemma render_columns_not_empty (cols : list (string * string)) :
  plain_columns cols = true -> String.eqb (render_columns cols) "" = false.
Proof.
  unfold plain_columns, render_columns. intros H.
  repeat (apply andb_prop in H; destruct H as [H ?]).
  destruct cols as [|[name type] rest]; [discriminate|].
  match goal with Hall : forallb _ _ = true |- _ =>
    simpl in Hall; apply andb_prop in Hall; destruct Hall as [Hc _];
    apply andb_prop in Hc; destruct Hc as [Hname _] end.
  apply plain_name_nonfancy in Hname.
  destruct name as [|a name]; [discriminate|].
  simpl. destruct (map _ rest); reflexivity.
Qed.

(** X13.  [addTable] with [force], on an open store with nothing pending,
    for a plain name (a nonfancy word that is no SQLite keyword and does
    not begin with [sqlite_]) and a plain column list (named columns of
    SQLite's storage types, the names plain and all different), when the
    engine takes its three calls: it returns without asking anybody
    (nothing is read or printed), and the file holds the tables it held
    but those of that name (in any case of letters), followed by the new
    table, with the columns given and no rows. *)
Theorem addTable_force_replaces
    (tableName : string) (cols : list (string * string)) (f : string)
    (db : Db) (st : St) :
  on_file f db st ->
  plain_name tableName = true ->
  plain_columns cols = true ->
  calm 3 (faults (world st)) = true ->
  exists st',
    addTable tableName (render_columns cols) true st = (Return tt, st') /\
    on_file f (drop_table tableName db ++
               [mkTable tableName (render_columns cols) []]) st' /\
    stdin (world st') = stdin (world st) /\
    stdout (world st') = stdout (world st).
Proof.
  intros Hon Hw Hcols Hcalm.
  apply plain_name_nonfancy in Hw.
  apply render_columns_not_empty in Hcols.
  pose proof (addTable_force_run tableName _ f db st Hon Hw Hcols Hcalm) as H.
  unfold wp in H.
  destruct (addTable tableName (render_columns cols) true st) as [o st'].
  simpl in H.
  destruct H as (-> & Hon' & _ & Hin & Hout).
  exists st'. auto.
Qed.

Lemma addTable_force_replaces_witness :
  exists st',
    addTable "people" (render_columns [("Id", "INT")]) true people_store =
      (Return tt, st') /\
    on_file "a.db"
      (drop_table "people"
         [mkTable "history" history_columns [];
          mkTable "people" "Id INT, Name TEXT" [[SqlInt 1; SqlText "Ada"]]]
       ++ [mkTable "people" (render_columns [("Id", "INT")]) []]) st' /\
    stdin (world st') = stdin (world people_store) /\
    stdout (world st') = stdout (world people_store).
Proof.
  apply (addTable_force_replaces "people" [("Id", "INT")] "a.db" _ people_store).
  - split; [reflexivity|vm_compute; reflexivity].
  - vm_compute. reflexivity.
  - vm_compute. reflexivity.
  - reflexivity.
Defined.

Lemma sql_name_eqb_refl (n : string) : sql_name_eqb n n = true.
Proof. unfold sql_name_eqb. apply String.eqb_refl. Qed.

Lemma drop_table_app (n : string) (db db' : Db) :
  drop_table n (db ++ db') = drop_table n db ++ drop_table n db'.
Proof. unfold drop_table. apply List.filter_app. Qed.

Lemma drop_table_twice (n : string) (db : Db) :
  drop_table n (drop_table n db) = drop_table n db.
Proof.
  unfold drop_table. induction db as [|t db IH]; simpl; [reflexivity|].
  destruct (sql_name_eqb (tbl_name t) n) eqn:E; simpl; [exact IH|].
  rewrite E. simpl. f_equal. exact IH.
Qed.

(** X14.  Doing it again changes nothing: two [addTable] calls with
    [force], for the same plain name and plain column list, when the
    engine takes its six calls, both return and leave the file as the
    first call left it. *)
Theorem addTable_force_twice
    (tableName : string) (cols : list (string * string)) (f : string)
    (db : Db) (st : St) :
  on_file f db st ->
  plain_name tableName = true ->
  plain_columns cols = true ->
  calm 6 (faults (world st)) = true ->
  exists st1 st2,
    addTable tableName (render_columns cols) true st = (Return tt, st1) /\
    addTable tableName (render_columns cols) true st1 = (Return tt, st2) /\
    files (world st2) !! f = files (world st1) !! f /\
    files (world st2) !! f =
      Some (drop_table tableName db ++
            [mkTable tableName (render_columns cols) []]).
Proof.
  intros Hon Hw Hcols Hcalm.
  apply plain_name_nonfancy in Hw.
  apply render_columns_not_empty in Hcols.
  set (columns := render_columns cols) in *.
  assert (Hcalm3 : calm 3 (faults (world st)) = true)
    by exact (calm_weaken 3 3 _ Hcalm).
  pose proof (addTable_force_run tableName columns f db st Hon Hw Hcols Hcalm3) as H.
  unfold wp in H.
  destruct (addTable tableName columns true st) as [o st1] eqn:E1. simpl in H.
  destruct H as (-> & Hon1 & Hf1 & _).
  assert (Hcalm1 : calm 3 (faults (world st1)) = true).
  { rewrite Hf1. exact (calm_tl 3 _ (calm_tl 4 _ (calm_tl 5 _ Hcalm))). }
  pose proof (addTable_force_run tableName columns f _ st1 Hon1 Hw Hcols Hcalm1) as H.
  unfold wp in H.
  destruct (addTable tableName columns true st1) as [o st2] eqn:E2. simpl in H.
  destruct H as (-> & Hon2 & _).
  exists st1, st2. split; [reflexivity|]. split; [exact E2|].
  destruct Hon1 as [_ Hd1]. destruct Hon2 as [_ Hd2].
  rewrite Hd2, Hd1.
  rewrite drop_table_app, drop_table_twice. unfold drop_table at 2. simpl.
  rewrite sql_name_eqb_refl. simpl. rewrite app_nil_r. split; reflexivity.
Qed.

Lemma addTable_force_twice_witness :
  exists st1 st2,
    addTable "people" (render_columns [("Id", "INT")]) true people_store =
      (Return tt, st1) /\
    addTable "people" (render_columns [("Id", "INT")]) true st1 =
      (Return tt, st2) /\
    files (world st2) !! "a.db" = files (world st1) !! "a.db" /\
    files (world st2) !! "a.db" =
      Some (drop_table "people"
              [mkTable "history" history_columns [];
               mkTable "people" "Id INT, Name TEXT" [[SqlInt 1; SqlText "Ada"]]]
            ++ [mkTable "people" (render_columns [("Id", "INT")]) []]).
Proof.
  apply (addTable_force_twice "people" [("Id", "INT")] "a.db" _ people_store).
  - split; [reflexivity|vm_compute; reflexivity].
  - vm_compute. reflexivity.
  - vm_compute. reflexivity.
  - reflexivity.
Defined.

Lemma find_table_app_none (n : string) (db db' : Db) :
  find_table n db = None -> find_table n (db ++ db') = find_table n db'.
Proof.
  unfold find_table. induction db as [|t db IH]; simpl; [reflexivity|].
  destruct (sql_name_eqb (tbl_name t) n); [discriminate|exact IH].
Qed.

(** X15.  The user accepts: [addTable] without [force], on an open store
    with nothing pending, for a plain name under which, letter for letter,
    a table is stored, and a plain column list, when the answer to the
    prompt is yes and the engine takes its four calls, returns, and the
    table has been replaced: the file holds the other tables and then the
    new one, with no rows.  The rows of the old table are gone. *)
Theorem addTable_accepted_replaces
    (tableName : string) (cols : list (string * string)) (f : string)
    (db : Db) (st : St) (t : Table) (rest out : list string) :
  on_file f db st ->
  In t db ->
  tbl_name t = tableName ->
  plain_name tableName = true ->
  plain_columns cols = true ->
  calm 4 (faults (world st)) = true ->
  prompt_loop tableName "table" false (stdin (world st)) = (Return true, rest, out) ->
  exists st',
    addTable tableName (render_columns cols) false st = (Return tt, st') /\
    on_file f (drop_table tableName db ++
               [mkTable tableName (render_columns cols) []]) st' /\
    find_table tableName
      (drop_table tableName db ++ [mkTable tableName (render_columns cols) []])
      = Some (mkTable tableName (render_columns cols) []) /\
    stdin (world st') = rest.
Proof.
  intros [Hc Hd] Hin Hn Hw Hcols Hcalm Hp.
  apply plain_name_nonfancy in Hw.
  apply render_columns_not_empty in Hcols.
  set (columns := render_columns cols) in *.
  assert (Hrows : exists r rows,
            map (fun t => [SqlText (tbl_name t)])
                (List.filter (fun t => String.eqb (tbl_name t) tableName) db)
            = r :: rows).
  { assert (Hin' : In t (List.filter (fun t => String.eqb (tbl_name t) tableName) db)).
    { apply filter_In. split; [exact Hin|]. rewrite Hn. apply String.eqb_refl. }
    destruct (List.filter _ _) as [|t' l]; [destruct Hin'|].
    simpl. eauto. }
  destruct Hrows as (r & rows & Hrows).
  assert (H : wp (addTable tableName columns false)
                (fun o st' =>
                   o = Return tt /\
                   on_file f (drop_table tableName db ++
                              [mkTable tableName columns []]) st' /\
                   stdin (world st') = rest) st).
  { unfold addTable, addTable_check.
    repeat wp_step. rewrite Hc. simpl. repeat wp_step.
    unfold execute at 1. wp_conn. apply (wp_engine_calm 3 _ _ _ Hcalm).
    unfold wp at 1. simpl. rewrite Hd. simpl. unfold view. simpl.
    rewrite (nonfancy_literal _ Hw), Hrows. simpl.
    repeat wp_step. unfold wp at 1, promptOnOverwrite. simpl. rewrite Hp. simpl.
    repeat wp_step. simpl.
    eapply wp_conseq.
    { apply (addTable_apply_run tableName columns f db);
        [split; [exact Hc|exact Hd]|exact Hw|exact Hcols|].
      exact (calm_tl 3 _ Hcalm). }
    intros o st' (Ho & Hon & _ & Hi & _). auto. }
  unfold wp in H.
  destruct (addTable tableName columns false st) as [o st']. simpl in H.
  destruct H as (-> & Hon' & Hi).
  exists st'. repeat split; try assumption; try apply Hon'.
  rewrite (find_table_app_none _ _ _ (find_drop_table tableName db)).
  unfold find_table. simpl. rewrite sql_name_eqb_refl. reflexivity.
Qed.

Lemma addTable_accepted_replaces_witness :
  exists st',
    addTable "people" (render_columns [("Id", "INT")]) false people_store_yes =
      (Return tt, st') /\
    on_file "a.db"
      (drop_table "people"
         [mkTable "history" history_columns [];
          mkTable "people" "Id INT, Name TEXT" [[SqlInt 1; SqlText "Ada"]]]
       ++ [mkTable "people" (render_columns [("Id", "INT")]) []]) st' /\
    find_table "people"
      (drop_table "people"
         [mkTable "history" history_columns [];
          mkTable "people" "Id INT, Name TEXT" [[SqlInt 1; SqlText "Ada"]]]
       ++ [mkTable "people" (render_columns [("Id", "INT")]) []])
      = Some (mkTable "people" (render_columns [("Id", "INT")]) []) /\
    stdin (world st') = [].
Proof.
  eapply (addTable_accepted_replaces "people" [("Id", "INT")] "a.db" _
            people_store_yes).
  - split; [reflexivity|vm_compute; reflexivity].
  - right. left. reflexivity.
  - reflexivity.
  - vm_compute. reflexivity.
  - vm_compute. reflexivity.
  - reflexivity.
  - vm_compute. reflexivity.
Defined.

(** ** Opening a file *)





(** X17.  [openFile] on a file that has no history table (any file that
    [createNewFile] did not make): the query of [getVersion] fails and
    [DP_FileError] is raised, after the connection was stored.  The store
    is left open on the file, with the version it had; a second
    [openFile] would raise [DP_FileAlreadyOpenException]. *)
Theorem openFile_without_history
    (fileName : string) (st : St) (db : Db) :
  connection (self st) = None ->
  files (world st) !! fileName = Some db ->
  find_table "history" db = None ->
  calm 2 (faults (world st)) = true ->
  exists st',
    openFile fileName st = (Raise (file_error "no such table: history"), st') /\
    is_open (self st') /\
    connection (self st') = Some (mkConnection fileName None) /\
    version (self st') = version (self st) /\
    files (world st') = files (world st) /\
    (forall other,
       fst (openFile other st') = Raise (DP_FileAlreadyOpenException [])).
Proof.
  intros Hc Hf Hh Hcalm.
  unfold openFile at 1, bind, get_self, os_path_isfile. rewrite Hc, Hf. simpl.
  unfold except_lite, lite_connect, engine_call.
  rewrite (calm_next 1 _ Hcalm). simpl. rewrite Hf. simpl.
  unfold modify_self. simpl.
  unfold getVersion, except_lite, bind, execute, on_connection, engine_call. simpl.
  match goal with |- context [next_fault ?w] =>
    replace (next_fault w) with (@None string)
      by (symmetry; apply (calm_next 0); exact (calm_tl 1 _ Hcalm)) end.
  simpl. rewrite Hf. simpl.
  unfold view. simpl. rewrite Hh. simpl.
  eexists. split; [reflexivity|]. simpl.
  split; [eexists; split; reflexivity|].
  repeat split.
Qed.

Lemma openFile_without_history_witness :
  exists st',
    openFile "bare.db" closed_by_files =
      (Raise (file_error "no such table: history"), st') /\
    is_open (self st') /\
    connection (self st') = Some (mkConnection "bare.db" None) /\
    version (self st') = version (self closed_by_files) /\
    files (world st') = files (world closed_by_files) /\
    (forall other,
       fst (openFile other st') = Raise (DP_FileAlreadyOpenException [])).
Proof.
  apply (openFile_without_history "bare.db" closed_by_files []).
  - reflexivity.
  - vm_compute. reflexivity.
  - reflexivity.
  - reflexivity.
Defined.

(** X18.  The engine refuses the connection: [openFile] on a store with
    no connection, for a file that is there, raises [DP_FileError] with
    the engine's message between [ERROR ] and a colon; the store is as it
    was, still closed, and no file has changed. *)
Theorem openFile_engine_failure
    (fileName : string) (st : St) (db : Db) (msg : string) :
  connection (self st) = None ->
  files (world st) !! fileName = Some db ->
  next_fault (world st) = Some msg ->
  exists st',
    openFile fileName st =
      (Raise (DP_FileError [ArgStr ("ERROR " +:+ msg +:+ ":")]), st') /\
    self st' = self st /\
    files (world st') = files (world st).
Proof.
  intros Hc Hf Hm.
  unfold openFile, bind, get_self, os_path_isfile. rewrite Hc, Hf. simpl.
  unfold except_lite, lite_connect, engine_call. rewrite Hm. simpl.
  eexists. repeat split.
Qed.

Lemma openFile_engine_failure_witness :
  exists st',
    openFile "f.db" closed_by_files_failing =
      (Raise (DP_FileError
                [ArgStr ("ERROR " +:+ "unable to open database file" +:+ ":")]), st') /\
    self st' = self closed_by_files_failing /\
    files (world st') = files (world closed_by_files_failing).
Proof.
  eapply (openFile_engine_failure "f.db" closed_by_files_failing).
  - reflexivity.
  - vm_compute. reflexivity.
  - reflexivity.
Defined.

(** ** The two states, for every method *)

Lemma state_pending (s : BaseFile) (c : Connection) (d : option Db) :
  connection s = Some c ->
  is_closed s \/ is_open s ->
  let s' := set_connection (Some (mkConnection (db_path c) d)) s in
  is_closed s' \/ is_open s'.
Proof.
  intros Hc [[Hn _]|Ho]; [congruence|].
  right. apply is_open_pending; assumption.
Qed.

Lemma createNewFile_state
    (fileName : string) (v : PyVal) (force verbose : bool) (st : St) :
  is_closed (self st) \/ is_open (self st) ->
  wp (createNewFile fileName v force verbose)
     (fun _ st' => is_closed (self st') \/ is_open (self st')) st.
Proof.
  intros H. unfold createNewFile.
  set (P := fun s : BaseFile => is_closed s \/ is_open s).
  apply wp_bind.
  apply (wp_preserves (fun st' => P (self st'))); [|exact H|].
  { destruct force; simpl; [apply preserves_ret|].
    apply preserves_bind; [apply (keeps_get_self P)|].
    intros s. destruct (connection s).
    + apply preserves_bind; [|intros; apply preserves_raise].
      intros st1 H1. unfold meta_get_fileName.
      destruct (meta_fileName _); exact H1.
    + apply preserves_bind; [apply (keeps_os_path_isfile P)|].
      intros [|]; [|apply preserves_ret].
      apply preserves_bind; [apply (keeps_promptOnOverwrite P)|].
      intros [|]; simpl.
      * apply preserves_bind; [apply (keeps_chatter P)|].
        intros _. apply preserves_bind; [|intros; apply preserves_ret].
        apply (keeps_os_remove P).
      * apply preserves_bind; [|intros; apply preserves_ret].
        apply (keeps_chatter P). }
  intros [go|e] st0 H0; [|exact H0].
  destruct go; simpl; [|apply wp_ret; exact H0].
  apply wp_bind, wp_except. unfold lite_connect.
  apply wp_engine_call; [intros msg _; exact H0|intros _].
  unfold wp at 1; simpl.
  apply wp_bind, wp_modify_self, wp_bind, wp_modify_self.
  apply (wp_preserves (fun st' => is_open (self st'))).
  - apply preserves_bind; [apply keeps_addTable, is_open_pending|].
    intros _. apply preserves_bind;
      [|intros _]; apply keeps__addHistory, is_open_pending.
  - eexists. split; reflexivity.
  - intros _ st' Ho. right. exact Ho.
Qed.

Lemma invoke_state (m : Method) (st : St) :
  is_closed (self st) \/ is_open (self st) ->
  is_closed (self (invoke m st)) \/ is_open (self (invoke m st)).
Proof.
  intros H.
  pose proof (state_pending) as Hp.
  destruct m; simpl.
  - exact (openFile_state fileName st H).
  - exact (closeFile_state st H).
  - exact (createNewFile_state fileName version0 force verbose st H).
  - exact (keeps_addTable _ Hp tableName columns force st H).
  - exact H.
  - exact (keeps__addHistory _ Hp _ _ st H).
  - exact (keeps__addHistory _ Hp _ _ st H).
  - exact (keeps__addHistory _ Hp _ _ st H).
  - exact (keeps__addHistory _ Hp _ _ st H).
  - exact (keeps_getVersion _ Hp st H).
Qed.

(** X19.  Whatever methods a caller invokes on a new store, with whatever
    arguments, in whatever world, and whether each call returns or raises:
    afterwards the store is closed (no connection, no file name in [meta],
    the version unset) or open (a connection, and [meta] names the file it
    is on), and never both. *)
Theorem session_closed_or_open (verbosity : Z) (w : World) (ms : list Method) :
  let s := self (session ms (mkSt (__init__ verbosity) w)) in
  (is_closed s \/ is_open s) /\ ~ (is_closed s /\ is_open s).
Proof.
  intros s. split; [|apply closed_not_open].
  subst s.
  assert (H0 : is_closed (self (mkSt (__init__ verbosity) w)) \/
               is_open (self (mkSt (__init__ verbosity) w))).
  { left. repeat split. }
  revert H0. generalize (mkSt (__init__ verbosity) w).
  induction ms as [|m ms IH]; intros st H; [exact H|].
  simpl. apply IH, invoke_state, H.
Qed.

(** ** When the engine takes every call *)






(** ** Create, close, open again *)



(** ** What is left untouched, and what is lost *)

(** X22.  [getVersion] only reads: however it ends (a value,
    [IndexError], [DP_FileError], [AttributeError] on a closed store),
    the store with its connection and what is pending there, every file,
    the clock and the terminal are as they were. *)
Theorem getVersion_reads_only (st : St) :
  let st' := snd (getVersion st) in
  self st' = self st /\
  files (world st') = files (world st) /\
  now (world st') = now (world st) /\
  stdin (world st') = stdin (world st) /\
  stdout (world st') = stdout (world st).
Proof.
  unfold getVersion, except_lite, bind, execute, on_connection, engine_call.
  destruct (connection (self st)) as [c|]; [|repeat split].
  destruct (next_fault (world st)); [repeat split|].
  simpl. destruct (files (world st) !! db_path c) as [committed|]; [|repeat split].
  simpl.
  destruct (find_table "history" (view c committed)) as [h|]; [|repeat split].
  destruct (negb (String.eqb (tbl_columns h) history_columns)); [repeat split|].
  simpl. destruct (order_by_time_desc _) as [|r rows]; simpl; [repeat split|].
  destruct (payload r) as [a|[]]; repeat split.
Qed.

(** X23.  The file is deleted before the new one is made: when the user
    has accepted the overwrite and the engine then refuses the connection,
    [createNewFile] raises [DP_FileError], the store is as it was, and the
    old file is gone with nothing in its place. *)
Theorem createNewFile_accepted_engine_failure
    (fileName : string) (v : PyVal) (verbose : bool) (st : St) (db : Db)
    (rest out : list string) (msg : string) :
  connection (self st) = None ->
  files (world st) !! fileName = Some db ->
  prompt_loop fileName "File" false (stdin (world st)) = (Return true, rest, out) ->
  next_fault (world st) = Some msg ->
  exists st',
    createNewFile fileName v false verbose st =
      (Raise (DP_FileError [ArgStr ("ERROR " +:+ msg +:+ ":")]), st') /\
    self st' = self st /\
    files (world st') = delete fileName (files (world st)) /\
    files (world st') !! fileName = None.
Proof.
  intros Hc Hf Hp Hm.
  assert (H : wp (createNewFile fileName v false verbose)
                (fun o st' =>
                   o = Raise (file_error msg) /\
                   self st' = self st /\
                   files (world st') = delete fileName (files (world st))) st).
  { unfold createNewFile. simpl negb. cbv iota.
    repeat wp_step. rewrite Hc.
    wp_step. unfold wp at 1, os_path_isfile. rewrite Hf. simpl.
    wp_step. unfold wp at 1, promptOnOverwrite. rewrite Hp. simpl.
    wp_step. apply wp_chatter;
      (wp_step; unfold wp at 1, os_remove; simpl; rewrite Hf; simpl;
       wp_step; simpl; repeat wp_step; unfold lite_connect;
       apply wp_engine_call;
       [intros m Hm'; change (next_fault (world st) = Some m) in Hm';
        rewrite Hm in Hm'; injection Hm' as <-; repeat split
       |intros Hn; change (next_fault (world st) = None) in Hn; congruence]). }
  unfold wp in H.
  destruct (createNewFile fileName v false verbose st) as [o st']. simpl in H.
  destruct H as (-> & Hs & Hfiles).
  exists st'. split; [reflexivity|]. split; [exact Hs|]. split; [exact Hfiles|].
  rewrite Hfiles. apply lookup_delete_eq.
Qed.

Lemma createNewFile_accepted_engine_failure_witness :
  exists st',
    createNewFile "f.db" (PyStr "1.0") false false over_existing_yes_failing =
      (Raise (DP_FileError
                [ArgStr ("ERROR " +:+ "unable to open database file" +:+ ":")]), st') /\
    self st' = self over_existing_yes_failing /\
    files (world st') = delete "f.db" (files (world over_existing_yes_failing)) /\
    files (world st') !! "f.db" = None.
Proof.
  eapply (createNewFile_accepted_engine_failure "f.db" (PyStr "1.0") false
            over_existing_yes_failing).
  - reflexivity.
  - vm_compute. reflexivity.
  - vm_compute. reflexivity.
  - reflexivity.
Defined.
